(** * Exercise-repetition detectors: a shallow embedding and its properties

    The detector core of the application (three classes behind the
    [ExerciseDetector] contract, plus the geometry helpers they share) is
    embedded here function by function.

    Numbers.  A JavaScript [number] is an IEEE-754 binary64 value, and so is
    Rocq's primitive [float]: [+], [-], [*], [/], [Math.sqrt] and the
    comparisons are the correctly rounded IEEE operations on both sides, so
    coordinates, scores, angles and thresholds are modelled as [float] and
    every definition below evaluates.  [Math.acos] is left to the host by the
    language standard; it is an operation of the class [JSMath].

    The three counters ([lastReps], [frameCount], [lastRepFrameCount]) only
    ever hold small non-negative integers, on which binary64 arithmetic is
    exact (below 2^53); they are modelled as [Z]. *)

From Stdlib Require Import ZArith List String Bool Lia.
From Stdlib Require Import Uint63.
From Stdlib Require Import Floats.
Import ListNotations.

Local Open Scope string_scope.
Local Open Scope list_scope.
Local Open Scope Z_scope.

Set Warnings "-inexact-float".

(** ** The host's [Math] object *)

Class JSMath := { Math_acos : float -> float }.

(** [Math.PI], the binary64 value nearest to pi. *)
Definition Math_PI : float := 0x1.921fb54442d18p+1%float.

(** [Math.min(x, y)] and [Math.max(x, y)]: NaN if either argument is NaN,
    and [-0] is smaller than [+0]. *)
Definition is_neg_zero (x : float) : bool :=
  (x =? 0)%float && (1 / x <? 0)%float.

Definition Math_min (x y : float) : float :=
  if is_nan x || is_nan y then nan
  else if (x <? y)%float then x
  else if (y <? x)%float then y
  else if is_neg_zero y then y else x.

Definition Math_max (x y : float) : float :=
  if is_nan x || is_nan y then nan
  else if (x <? y)%float then y
  else if (y <? x)%float then x
  else if is_neg_zero x then y else x.

(** [Array.prototype.length] as a number. *)
Fixpoint number_of_nat (n : nat) : float :=
  match n with
  | O => 0%float
  | S n' => (number_of_nat n' + 1)%float
  end.

(** ** Data model *)

Record Keypoint := mkKeypoint { x : float; y : float; score : float }.

Record Pose := mkPose { keypoints : list Keypoint; pose_score : float }.

(** ** Geometry helpers *)

(** [v ** 2]: with the exponent 2 the power is the product [v * v]. *)
Definition sq (v : float) : float := (v * v)%float.

Definition calculateDistance (p1 p2 : Keypoint) : float :=
  sqrt (sq (x p1 - x p2) + sq (y p1 - y p2))%float.

Definition calculateAngle `{JSMath} (a b c : Keypoint) : float :=
  let ba_x := (x a - x b)%float in
  let ba_y := (y a - y b)%float in
  let bc_x := (x c - x b)%float in
  let bc_y := (y c - y b)%float in
  let dotProduct := (ba_x * bc_x + ba_y * bc_y)%float in
  let baLength := sqrt (sq ba_x + sq ba_y)%float in
  let bcLength := sqrt (sq bc_x + sq bc_y)%float in
  if (baLength =? 0)%float || (bcLength =? 0)%float then 0%float
  else
    let cosAngle := (dotProduct / (baLength * bcLength))%float in
    (Math_acos (Math_min 1 (Math_max (-1) cosAngle)) * (180 / Math_PI))%float.

(** [pose.keypoints[index]] is [undefined] past the end of the array; an
    [undefined] entry and one whose score is not above 0.3 both give [null]. *)
Definition getKeypoint (pose : Pose) (index : nat) : option Keypoint :=
  match nth_error (keypoints pose) index with
  | Some kp => if (0.3 <? score kp)%float then Some kp else None
  | None => None
  end.

Definition validKeypoints (kps : list (option Keypoint)) : list Keypoint :=
  flat_map (fun kp => match kp with Some k => [k] | None => [] end) kps.

Definition getMeanConfidence (kps : list (option Keypoint)) : float :=
  let valid := validKeypoints kps in
  if (List.length valid =? 0)%nat then 0%float
  else (fold_left (fun sum kp => (sum + score kp)%float) valid 0%float
        / number_of_nat (List.length valid))%float.

(** ** The base class [ExerciseDetector] *)

Record ExerciseDetector := mkDetector {
  lastReps : Z;
  isInDownPosition : bool;
  lastAngle : float;
  formQuality : string;
  frameCount : Z;
  lastRepFrameCount : Z
}.

(** The field initialisers of the class: the state of [new PushupDetector()],
    [new SquatDetector()] and [new SitupDetector()] alike. *)
Definition new_ExerciseDetector : ExerciseDetector :=
  {| lastReps := 0;
     isInDownPosition := false;
     lastAngle := 0%float;
     formQuality := "Good";
     frameCount := 0;
     lastRepFrameCount := 0 |}.

(** A method runs on [this] and leaves it updated. *)
Definition Method (A : Type) : Type := ExerciseDetector -> A * ExerciseDetector.

Definition ret {A} (a : A) : Method A := fun this => (a, this).

Definition bind {A B} (m : Method A) (k : A -> Method B) : Method B :=
  fun this => let (a, this') := m this in k a this'.

Declare Scope method_scope.
Delimit Scope method_scope with method.
Notation "x <- m ;; k" := (bind m (fun x => k))
  (at level 61, m at next level, right associativity) : method_scope.
Notation "m ;; k" := (bind m (fun _ => k))
  (at level 61, right associativity) : method_scope.

(** [this.f] *)
Definition read {A} (f : ExerciseDetector -> A) : Method A :=
  fun this => (f this, this).

(** [this.f = v], one definition per field. *)
Definition set_lastReps (v : Z) : Method unit := fun this =>
  (tt, mkDetector v (isInDownPosition this) (lastAngle this)
         (formQuality this) (frameCount this) (lastRepFrameCount this)).
Definition set_isInDownPosition (v : bool) : Method unit := fun this =>
  (tt, mkDetector (lastReps this) v (lastAngle this)
         (formQuality this) (frameCount this) (lastRepFrameCount this)).
Definition set_lastAngle (v : float) : Method unit := fun this =>
  (tt, mkDetector (lastReps this) (isInDownPosition this) v
         (formQuality this) (frameCount this) (lastRepFrameCount this)).
Definition set_formQuality (v : string) : Method unit := fun this =>
  (tt, mkDetector (lastReps this) (isInDownPosition this) (lastAngle this)
         v (frameCount this) (lastRepFrameCount this)).
Definition set_frameCount (v : Z) : Method unit := fun this =>
  (tt, mkDetector (lastReps this) (isInDownPosition this) (lastAngle this)
         (formQuality this) v (lastRepFrameCount this)).
Definition set_lastRepFrameCount (v : Z) : Method unit := fun this =>
  (tt, mkDetector (lastReps this) (isInDownPosition this) (lastAngle this)
         (formQuality this) (frameCount this) v).

Local Open Scope method_scope.

Definition getReps : Method Z := read lastReps.

Definition getFormFeedback : Method string := read formQuality.

Definition reset : Method unit :=
  set_lastReps 0 ;;
  set_isInDownPosition false ;;
  set_lastAngle 0%float ;;
  set_frameCount 0 ;;
  set_lastRepFrameCount 0.

(** ** The three detectors *)

Module PushupDetector.

Definition startPositionThreshold : float := 150.
Definition endPositionThreshold : float := 25.
Definition framesBetweenReps : Z := 10.
Definition minFormQuality : float := 0.5.

Definition detectRep `{JSMath} (pose : Pose) : Method bool :=
  fc <- read frameCount ;; set_frameCount (fc + 1) ;;
  let leftShoulder := getKeypoint pose 5 in
  let leftElbow := getKeypoint pose 7 in
  let leftWrist := getKeypoint pose 9 in
  let rightShoulder := getKeypoint pose 6 in
  let rightElbow := getKeypoint pose 8 in
  let rightWrist := getKeypoint pose 10 in
  match leftElbow, rightElbow with
  | Some leftElbow', Some rightElbow' =>
    let confidence :=
      getMeanConfidence [leftShoulder; leftElbow; leftWrist;
                         rightShoulder; rightElbow; rightWrist] in
    let elbowAngle := 180%float in
    let elbowAngle :=
      match leftShoulder, leftWrist with
      | Some leftShoulder', Some leftWrist' =>
        Math_min elbowAngle (calculateAngle leftShoulder' leftElbow' leftWrist')
      | _, _ => elbowAngle
      end in
    let elbowAngle :=
      match rightShoulder, rightWrist with
      | Some rightShoulder', Some rightWrist' =>
        Math_min elbowAngle (calculateAngle rightShoulder' rightElbow' rightWrist')
      | _, _ => elbowAngle
      end in
    set_lastAngle elbowAngle ;;
    if (confidence <? minFormQuality)%float then
      set_formQuality "Low visibility - adjust your position" ;;
      ret false
    else
      wasDown <- read isInDownPosition ;;
      set_isInDownPosition (elbowAngle <? endPositionThreshold)%float ;;
      isDown <- read isInDownPosition ;;
      if wasDown && negb isDown then
        fc <- read frameCount ;;
        lastRep <- read lastRepFrameCount ;;
        if (startPositionThreshold <? elbowAngle)%float
           && (framesBetweenReps <? fc - lastRep)%Z then
          reps <- read lastReps ;; set_lastReps (reps + 1) ;;
          set_lastRepFrameCount fc ;;
          set_formQuality "Perfect! Rep counted" ;;
          ret true
        else if (elbowAngle <? startPositionThreshold)%float then
          set_formQuality "Incomplete rep - extend fully" ;;
          ret false
        else ret false
      else if isDown then
        if (elbowAngle <? 15)%float then
          set_formQuality "Perfect form! Keep going" ;; ret false
        else if (elbowAngle <? 50)%float then
          set_formQuality "Good form - go lower" ;; ret false
        else
          set_formQuality "Go lower for full rep" ;; ret false
      else
        set_formQuality "Ready - Lower your body" ;; ret false
  | _, _ =>
    set_formQuality "Position body with arms visible" ;;
    ret false
  end.

End PushupDetector.

Module SquatDetector.

Definition startPositionThreshold : float := 140.
Definition endPositionThreshold : float := 85.
Definition framesBetweenReps : Z := 10.
Definition minFormQuality : float := 0.5.

Definition detectRep `{JSMath} (pose : Pose) : Method bool :=
  fc <- read frameCount ;; set_frameCount (fc + 1) ;;
  let leftHip := getKeypoint pose 11 in
  let leftKnee := getKeypoint pose 13 in
  let leftAnkle := getKeypoint pose 15 in
  let rightHip := getKeypoint pose 12 in
  let rightKnee := getKeypoint pose 14 in
  let rightAnkle := getKeypoint pose 16 in
  match leftKnee, rightKnee with
  | Some leftKnee', Some rightKnee' =>
    let confidence :=
      getMeanConfidence [leftHip; leftKnee; leftAnkle;
                         rightHip; rightKnee; rightAnkle] in
    let kneeAngle := 180%float in
    let kneeAngle :=
      match leftHip, leftAnkle with
      | Some leftHip', Some leftAnkle' =>
        Math_min kneeAngle (calculateAngle leftHip' leftKnee' leftAnkle')
      | _, _ => kneeAngle
      end in
    let kneeAngle :=
      match rightHip, rightAnkle with
      | Some rightHip', Some rightAnkle' =>
        Math_min kneeAngle (calculateAngle rightHip' rightKnee' rightAnkle')
      | _, _ => kneeAngle
      end in
    set_lastAngle kneeAngle ;;
    if (confidence <? minFormQuality)%float then
      set_formQuality "Low visibility - adjust your position" ;;
      ret false
    else
      wasDown <- read isInDownPosition ;;
      set_isInDownPosition (kneeAngle <? endPositionThreshold)%float ;;
      isDown <- read isInDownPosition ;;
      if wasDown && negb isDown then
        fc <- read frameCount ;;
        lastRep <- read lastRepFrameCount ;;
        if (startPositionThreshold <? kneeAngle)%float
           && (framesBetweenReps <? fc - lastRep)%Z then
          reps <- read lastReps ;; set_lastReps (reps + 1) ;;
          set_lastRepFrameCount fc ;;
          set_formQuality "Perfect! Rep counted" ;;
          ret true
        else if (kneeAngle <? startPositionThreshold)%float then
          set_formQuality "Incomplete rep - stand up fully" ;;
          ret false
        else ret false
      else if isDown then
        if (kneeAngle <? 80)%float then
          set_formQuality "Excellent depth!" ;; ret false
        else if (kneeAngle <? 100)%float then
          set_formQuality "Good depth - keep going" ;; ret false
        else
          set_formQuality "Go lower for full squat" ;; ret false
      else
        set_formQuality "Ready - Squat down" ;; ret false
  | _, _ =>
    set_formQuality "Position legs for detection" ;;
    ret false
  end.

End SquatDetector.

Module SitupDetector.

Definition startPositionThreshold : float := 140.
Definition endPositionThreshold : float := 100.
Definition framesBetweenReps : Z := 10.
Definition minFormQuality : float := 0.5.

Definition detectRep (pose : Pose) : Method bool :=
  fc <- read frameCount ;; set_frameCount (fc + 1) ;;
  let nose := getKeypoint pose 0 in
  let leftHip := getKeypoint pose 11 in
  let rightHip := getKeypoint pose 12 in
  let leftShoulder := getKeypoint pose 5 in
  let rightShoulder := getKeypoint pose 6 in
  match nose, leftHip, rightHip with
  | Some nose', Some leftHip', Some rightHip' =>
    let confidence :=
      getMeanConfidence [nose; leftHip; rightHip;
                         leftShoulder; rightShoulder] in
    let hipMidpoint :=
      {| x := ((x leftHip' + x rightHip') / 2)%float;
         y := ((y leftHip' + y rightHip') / 2)%float;
         score := 0.5%float |} in
    let torsoDistance := calculateDistance nose' hipMidpoint in
    let normalizedAngle := Math_min (torsoDistance * 50)%float 180%float in
    set_lastAngle normalizedAngle ;;
    if (confidence <? minFormQuality)%float then
      set_formQuality "Low visibility - adjust position" ;;
      ret false
    else
      wasDown <- read isInDownPosition ;;
      set_isInDownPosition (normalizedAngle <? endPositionThreshold)%float ;;
      isDown <- read isInDownPosition ;;
      if wasDown && negb isDown then
        fc <- read frameCount ;;
        lastRep <- read lastRepFrameCount ;;
        if (startPositionThreshold <? normalizedAngle)%float
           && (framesBetweenReps <? fc - lastRep)%Z then
          reps <- read lastReps ;; set_lastReps (reps + 1) ;;
          set_lastRepFrameCount fc ;;
          set_formQuality "Perfect! Rep counted" ;;
          ret true
        else if (normalizedAngle <? startPositionThreshold)%float then
          set_formQuality "Incomplete rep - lie back fully" ;;
          ret false
        else ret false
      else if isDown then
        if (normalizedAngle <? 90)%float then
          set_formQuality "Great curl! Complete it" ;; ret false
        else
          set_formQuality "Keep curling up" ;; ret false
      else
        set_formQuality "Ready - Curl up" ;; ret false
  | _, _, _ =>
    set_formQuality "Position your body fully" ;;
    ret false
  end.

End SitupDetector.

(** ** The polymorphic contract

    The frame loop holds one detector, chosen once per session from the
    exercise type, and calls [detectRep] through the base class. *)

Inductive ExerciseType := pushup | squat | situp.

Definition detectRep `{JSMath} (e : ExerciseType) : Pose -> Method bool :=
  match e with
  | pushup => PushupDetector.detectRep
  | squat => SquatDetector.detectRep
  | situp => SitupDetector.detectRep
  end.

(** The frame loop: one [detectRep] call per pose, in order; the result is
    the list of returned flags. *)
Fixpoint feed `{JSMath} (e : ExerciseType) (poses : list Pose)
  : Method (list bool) :=
  match poses with
  | [] => ret []
  | pose :: rest =>
    r <- detectRep e pose ;;
    rs <- feed e rest ;;
    ret (r :: rs)
  end.

(** ** Vocabulary of the specification

    The quantities the properties below talk about, read off the three
    [detectRep] bodies: which landmarks a detector needs, the metric it
    tracks, the aggregate confidence, its thresholds and its messages. *)

Definition startThreshold (e : ExerciseType) : float :=
  match e with
  | pushup => PushupDetector.startPositionThreshold
  | squat => SquatDetector.startPositionThreshold
  | situp => SitupDetector.startPositionThreshold
  end.

Definition endThreshold (e : ExerciseType) : float :=
  match e with
  | pushup => PushupDetector.endPositionThreshold
  | squat => SquatDetector.endPositionThreshold
  | situp => SitupDetector.endPositionThreshold
  end.

Definition framesBetweenReps (e : ExerciseType) : Z :=
  match e with
  | pushup => PushupDetector.framesBetweenReps
  | squat => SquatDetector.framesBetweenReps
  | situp => SitupDetector.framesBetweenReps
  end.

Definition minFormQuality (e : ExerciseType) : float :=
  match e with
  | pushup => PushupDetector.minFormQuality
  | squat => SquatDetector.minFormQuality
  | situp => SitupDetector.minFormQuality
  end.

(** Landmarks whose absence ends the frame at once. *)
Definition essential (e : ExerciseType) : list nat :=
  match e with
  | pushup => [7; 8]
  | squat => [13; 14]
  | situp => [0; 11; 12]
  end%nat.

(** Landmarks whose scores enter the aggregate confidence, in the order of
    the call to [getMeanConfidence]. *)
Definition involved (e : ExerciseType) : list nat :=
  match e with
  | pushup => [5; 7; 9; 6; 8; 10]
  | squat => [11; 13; 15; 12; 14; 16]
  | situp => [0; 11; 12; 5; 6]
  end%nat.

Definition visible (pose : Pose) (index : nat) : bool :=
  match getKeypoint pose index with Some _ => true | None => false end.

Definition essentialsVisible (e : ExerciseType) (pose : Pose) : bool :=
  forallb (visible pose) (essential e).

Definition confidence (e : ExerciseType) (pose : Pose) : float :=
  getMeanConfidence (map (getKeypoint pose) (involved e)).

(** One side of a joint angle: the running minimum is lowered by the angle
    at [j] when the whole triple is visible, and kept otherwise. *)
Definition withSide `{JSMath} (pose : Pose) (i j k : nat) (acc : float)
  : float :=
  match getKeypoint pose i, getKeypoint pose j, getKeypoint pose k with
  | Some a, Some b, Some c => Math_min acc (calculateAngle a b c)
  | _, _, _ => acc
  end.

(** The tracked metric of a frame ([elbowAngle], [kneeAngle],
    [normalizedAngle]); it is only consulted when the essential landmarks
    are visible. *)
Definition metric `{JSMath} (e : ExerciseType) (pose : Pose) : float :=
  match e with
  | pushup => withSide pose 6 8 10 (withSide pose 5 7 9 180%float)
  | squat => withSide pose 12 14 16 (withSide pose 11 13 15 180%float)
  | situp =>
    match getKeypoint pose 0, getKeypoint pose 11, getKeypoint pose 12 with
    | Some nose, Some leftHip, Some rightHip =>
      let hipMidpoint :=
        {| x := ((x leftHip + x rightHip) / 2)%float;
           y := ((y leftHip + y rightHip) / 2)%float;
           score := 0.5%float |} in
      Math_min (calculateDistance nose hipMidpoint * 50)%float 180%float
    | _, _, _ => 0%float
    end
  end.

Definition positionMessage (e : ExerciseType) : string :=
  match e with
  | pushup => "Position body with arms visible"
  | squat => "Position legs for detection"
  | situp => "Position your body fully"
  end.

Definition lowVisibilityMessage (e : ExerciseType) : string :=
  match e with
  | pushup => "Low visibility - adjust your position"
  | squat => "Low visibility - adjust your position"
  | situp => "Low visibility - adjust position"
  end.

Definition incompleteMessage (e : ExerciseType) : string :=
  match e with
  | pushup => "Incomplete rep - extend fully"
  | squat => "Incomplete rep - stand up fully"
  | situp => "Incomplete rep - lie back fully"
  end.

Definition successMessage : string := "Perfect! Rep counted".

Definition readyMessage (e : ExerciseType) : string :=
  match e with
  | pushup => "Ready - Lower your body"
  | squat => "Ready - Squat down"
  | situp => "Ready - Curl up"
  end.

Definition depthMessage (e : ExerciseType) (m : float) : string :=
  match e with
  | pushup =>
    if (m <? 15)%float then "Perfect form! Keep going"
    else if (m <? 50)%float then "Good form - go lower"
    else "Go lower for full rep"
  | squat =>
    if (m <? 80)%float then "Excellent depth!"
    else if (m <? 100)%float then "Good depth - keep going"
    else "Go lower for full squat"
  | situp =>
    if (m <? 90)%float then "Great curl! Complete it"
    else "Keep curling up"
  end.

(** What a frame amounts to for the state machine. *)
Inductive Frame :=
| Untracked
| LowConfidence (m : float)
| Tracked (m : float).

Definition frameOf `{JSMath} (e : ExerciseType) (pose : Pose) : Frame :=
  if essentialsVisible e pose then
    if (confidence e pose <? minFormQuality e)%float
    then LowConfidence (metric e pose)
    else Tracked (metric e pose)
  else Untracked.

(** The common two-phase machine, as one transition on the detector state.
    [detectRep_advance] below shows that each [detectRep] is this
    transition on the frame it is given. *)
Definition advance (e : ExerciseType) (f : Frame) : Method bool :=
  fun this =>
    let fc := frameCount this + 1 in
    match f with
    | Untracked =>
      (false, mkDetector (lastReps this) (isInDownPosition this)
                (lastAngle this) (positionMessage e) fc
                (lastRepFrameCount this))
    | LowConfidence m =>
      (false, mkDetector (lastReps this) (isInDownPosition this) m
                (lowVisibilityMessage e) fc (lastRepFrameCount this))
    | Tracked m =>
      let down := (m <? endThreshold e)%float in
      if isInDownPosition this && negb down then
        if (startThreshold e <? m)%float
           && (framesBetweenReps e <? fc - lastRepFrameCount this)%Z
        then (true, mkDetector (lastReps this + 1) down m successMessage fc fc)
        else (false, mkDetector (lastReps this) down m
                       (if (m <? startThreshold e)%float
                        then incompleteMessage e else formQuality this)
                       fc (lastRepFrameCount this))
      else (false, mkDetector (lastReps this) down m
                     (if down then depthMessage e m else readyMessage e)
                     fc (lastRepFrameCount this))
    end.

(** The cosine that [calculateAngle] computes before clamping it; the two
    ray lengths are [calculateDistance a b] and [calculateDistance c b]. *)
Definition cosAngle (a b c : Keypoint) : float :=
  ((((x a - x b) * (x c - x b)) + ((y a - y b) * (y c - y b)))
   / (calculateDistance a b * calculateDistance c b))%float.

(** Hypotheses of the end-to-end scenarios.  An angle computed through
    [Math.acos] and the factor [180 / Math.PI] is a rounded value (15, for
    one, is not the product of [180 / Math.PI] with any binary64 number), so
    a frame "at v degrees" is one whose metric lies within half a degree
    of [v]. *)
Definition near (v m : float) : bool :=
  ((v - 0.5 <? m) && (m <? v + 0.5))%float.

(** A frame "with every confidence equal to 1.0": the 17 landmarks of the
    skeletal layout, each with score 1. *)
Definition fullConfidence (pose : Pose) : Prop :=
  List.length (keypoints pose) = 17%nat /\
  Forall (fun kp => score kp = 1%float) (keypoints pose).

(** ** A host for the closed examples

    V8 computes [Math.acos] with the fdlibm algorithm ([__ieee754_acos]):
    a rational approximation on each of three ranges.  The tests on the
    high word of [x] are written as the comparisons they stand for. *)

Module V8.

(** [SET_LOW_WORD(s, 0)]: the low 32 bits of the significand cleared. *)
Definition clear_low_word (s : float) : float :=
  let (m, e) := frshiftexp s in
  let hi := PrimInt63.lsl (PrimInt63.lsr (normfr_mantissa m) 32%uint63) 32%uint63 in
  ldshiftexp (of_uint63 hi) (PrimInt63.sub e 53%uint63).

Definition pi : float := 0x1.921fb54442d18p+1.
Definition pio2_hi : float := 0x1.921fb54442d18p+0.
Definition pio2_lo : float := 0x1.1a62633145c07p-54.

Definition P (z : float) : float :=
  (z * (0x1.5555555555555p-3 + z * (-0x1.4d61203eb6f7dp-2
   + z * (0x1.9c1550e884455p-3 + z * (-0x1.48228b5688f3bp-5
   + z * (0x1.9efe07501b288p-11 + z * 0x1.23de10dfdf709p-15))))))%float.

Definition Q (z : float) : float :=
  (1 + z * (-0x1.33a271c8a2d4bp+1 + z * (0x1.02ae59c598ac8p+1
   + z * (-0x1.6066c1b8d0159p-1 + z * 0x1.3b8c5b12e9282p-4))))%float.

Definition acos (v : float) : float :=
  if (abs v <? 1)%float then
    if (abs v <? 0.5)%float then
      if (abs v <? 0x1.00001p-57)%float then (pio2_hi + pio2_lo)%float
      else
        let z := (v * v)%float in
        let r := (P z / Q z)%float in
        (pio2_hi - (v - (pio2_lo - r * v)))%float
    else if (v <? 0)%float then
      let z := ((1 + v) * 0.5)%float in
      let s := PrimFloat.sqrt z in
      let r := (P z / Q z)%float in
      let w := (r * s - pio2_lo)%float in
      (pi - 2 * (s + w))%float
    else
      let z := ((1 - v) * 0.5)%float in
      let s := PrimFloat.sqrt z in
      let df := clear_low_word s in
      let c := ((z - df * df) / (s + df))%float in
      let r := (P z / Q z)%float in
      let w := (r * s + c)%float in
      (2 * (df + w))%float
  else if (abs v =? 1)%float then
    if (0 <? v)%float then 0%float else (pi + 2 * pio2_lo)%float
  else ((v - v) / (v - v))%float.

Definition host : JSMath := {| Math_acos := acos |}.

End V8.

(** ** Example frames *)

Definition pt (px py : float) : Keypoint := mkKeypoint px py 1.

(** A front view in pixel coordinates with every landmark at score 1; the
    upper arms and thighs hang straight down, the forearms point to
    [(dx, dy)] from the elbows and the shins to [(ex, ey)] from the knees,
    mirrored left to right. *)
Definition body (dx dy ex ey : float) : Pose :=
  {| keypoints :=
       [ pt 300 60; pt 290 50; pt 310 50; pt 280 60; pt 320 60;
         pt 200 100; pt 400 100;
         pt 200 200; pt 400 200;
         pt (200 + dx) (200 + dy); pt (400 - dx) (200 + dy);
         pt 250 300; pt 350 300;
         pt 250 400; pt 350 400;
         pt (250 + ex) (400 + ey); pt (350 - ex) (400 + ey) ];
     pose_score := 1 |}.

(** Arms bent to about 170, 160, 20, 15 and 100 degrees at the elbows. *)
Definition arms170 : Pose := body 17 98 0 100.
Definition arms160 : Pose := body 34 94 0 100.
Definition arms20 : Pose := body 34 (-94) 0 100.
Definition arms15 : Pose := body 26 (-97) 0 100.
Definition arms100 : Pose := body 98 17 0 100.

(** Frames that need no arccosine: every landmark at one point, the nose
    [d] away from it, all with score [c] except the wrists and ankles, which
    have score [c'].  With the limbs collapsed to a point the joint angles
    are the degenerate 0; with wrists and ankles hidden they default to
    180; the sit-up proxy is [min (50 d) 180]. *)
Definition collapsed (d c c' : float) : Pose :=
  let o := mkKeypoint 0 0 c in
  let h := mkKeypoint 0 0 c' in
  {| keypoints := [ mkKeypoint 0 d c; o; o; o; o; o; o; o; o; h; h;
                    o; o; o; o; h; h ];
     pose_score := c |}.

Definition downFrame : Pose := collapsed 1 1 1.
Definition upFrame : Pose := collapsed 3 1 0.
Definition edgeFrame : Pose := collapsed 2.8 1 0.
Definition dimUpFrame : Pose := collapsed 3 0.4 0.

(** Six frames standing with the arms almost straight. *)
Definition warmUp : list Pose := repeat arms170 6.

(** Twenty frames: ten down, nine up, one down.  Frame 11 is the first up
    frame; frame 20 is a down frame again. *)
Definition session20 : list Pose :=
  repeat downFrame 10 ++ repeat upFrame 9 ++ [downFrame].

(** A frame with no landmark at all, and one cut off after the elbows. *)
Definition emptyFrame : Pose := {| keypoints := []; pose_score := 0 |}.
Definition shortFrame : Pose :=
  {| keypoints := firstn 9 (keypoints upFrame); pose_score := 1 |}.

(** ** The training camera ([LiveTrainingCamera])

    The component's state that the frame handler reads and writes, the
    callbacks it invokes, and [detectFrame] as one step on a frame's
    outcome: [Some pose] when every reference is in place and the pose
    estimator returned a pose, [None] when the handler leaves early (a
    reference missing, no pose, or an estimator error caught).  Drawing
    and the frame-rate counter touch no state modelled here. *)

Module LiveTrainingCamera.

(** [requiredReps] is [None] when the parent leaves the prop out (the
    comparison with [undefined] is then false); [onComplete] tells whether
    the optional callback was passed. *)
Record Props := mkProps {
  exerciseType : ExerciseType;
  requiredReps : option Z;
  onComplete : bool
}.

Record State := mkState {
  detectorRef : option (ExerciseType * ExerciseDetector);
  reps : Z;
  feedback : string;
  completionTriggeredRef : bool;
  isComplete : bool
}.

(** What the handler calls outside the component. *)
Inductive Call :=
| onRepsUpdate (newReps : Z)
| onFormUpdate (formFeedback : string)
| setTimeout_onComplete.

Definition mounted : State :=
  {| detectorRef := None;
     reps := 0;
     feedback := "Initializing camera...";
     completionTriggeredRef := false;
     isComplete := false |}.

Definition initializeDetector (props : Props) (st : State) : State :=
  mkState (Some (exerciseType props, new_ExerciseDetector)) (reps st)
    (feedback st) (completionTriggeredRef st) (isComplete st).

(** The effect on [exerciseType] once the libraries are loaded. *)
Definition sessionEffect (props : Props) (st : State) : State :=
  let st := initializeDetector props st in
  mkState (detectorRef st) 0 (feedback st) false false.

Definition detectFrame `{JSMath} (props : Props) (frame : option Pose)
  (st : State) : list Call * State :=
  match detectorRef st, frame with
  | Some (e, detector), Some pose =>
    let (isNewRep, detector) := detectRep e pose detector in
    let '(calls, st) :=
      if isNewRep then
        let newReps := fst (getReps detector) in
        let st := mkState (Some (e, detector)) newReps (feedback st)
                    (completionTriggeredRef st) (isComplete st) in
        if match requiredReps props with
           | Some required => (required <=? newReps)%Z
           | None => false
           end
           && negb (completionTriggeredRef st) && onComplete props
        then ([onRepsUpdate newReps; setTimeout_onComplete],
              mkState (detectorRef st) (reps st) "Mission Complete!" true true)
        else ([onRepsUpdate newReps], st)
      else ([], mkState (Some (e, detector)) (reps st) (feedback st)
                  (completionTriggeredRef st) (isComplete st)) in
    let formFeedback :=
      let s := fst (getFormFeedback detector) in
      if String.eqb s "" then "Tracking..." else s in
    (calls ++ [onFormUpdate formFeedback],
     mkState (detectorRef st) (reps st) formFeedback
       (completionTriggeredRef st) (isComplete st))
  | _, _ => ([], st)
  end.

(** A stretch of the animation loop. *)
Fixpoint run `{JSMath} (props : Props) (frames : list (option Pose))
  (st : State) : list Call * State :=
  match frames with
  | [] => ([], st)
  | frame :: rest =>
    let (calls, st) := detectFrame props frame st in
    let (calls', st) := run props rest st in
    (calls ++ calls', st)
  end.

(** The frames that reach the detector, the rep counts reported and the
    number of completions scheduled in a list of calls. *)
Definition posed (frames : list (option Pose)) : list Pose :=
  flat_map (fun f => match f with Some pose => [pose] | None => [] end) frames.

Definition reported (calls : list Call) : list Z :=
  flat_map (fun c => match c with onRepsUpdate n => [n] | _ => [] end) calls.

Definition completions (calls : list Call) : nat :=
  List.length (filter (fun c => match c with
                                | setTimeout_onComplete => true
                                | _ => false
                                end) calls).

(** Whether a frame that counted [newReps] schedules the completion. *)
Definition fires (props : Props) (st : State) (isNewRep : bool) (newReps : Z)
  : bool :=
  isNewRep
  && match requiredReps props with
     | Some required => (required <=? newReps)%Z
     | None => false
     end
  && negb (completionTriggeredRef st) && onComplete props.

(** [from + 1, from + 2, ..., from + n]. *)
Fixpoint countUp (from : Z) (n : nat) : list Z :=
  match n with
  | O => []
  | S n' => (from + 1) :: countUp (from + 1) n'
  end.

End LiveTrainingCamera.

(** A camera asked for one sit-up with a completion callback, and twelve
    frames of its loop: one without a pose, ten down, one up. *)
Definition oneSitup : LiveTrainingCamera.Props :=
  LiveTrainingCamera.mkProps situp (Some 1) true.

Definition twelveFrames : list (option Pose) :=
  None :: map Some (repeat downFrame 10 ++ [upFrame]).

(** ** The session reward ([TrainingModal])

    [handleEndSession] as far as the reward goes: the guard that ends it
    early, and the experience it then stores and reports (the database
    calls in between, and their failure, are outside the model), together
    with the rate shown on the exercise cards.  The rate tables hold twice
    their source values and [Math.floor] of a quotient is [Z.div]: every
    product involved is a multiple of one half (of one quarter, for the
    displayed rate), which binary64 computes exactly while [reps] is at
    most 2^48 (the largest product, 14 * [reps] halves, is then below
    2^53), the range the properties below are stated for.  The rank
    ranges over the keys of [RANK_MULTIPLIERS]. *)

Module TrainingModal.

Inductive Rank := rank_E | rank_D | rank_C | rank_B | rank_A | rank_S | rank_SS.

(** [requiredReps] is [None] when the parent leaves the prop out. *)
Record Props := mkProps {
  userRank : Rank;
  requiredReps : option Z
}.

(** [requiredReps = 10] in the parameter list *)
Definition required (props : Props) : Z :=
  match requiredReps props with
  | Some n => n
  | None => 10
  end.

(** [user] tells whether a user is signed in; [sessionStartTime] is [None]
    for [null]. *)
Record State := mkState {
  user : bool;
  selectedExercise : option ExerciseType;
  reps : Z;
  sessionStartTime : option Z
}.

(** [2 * EXERCISE_XP[exercise]] *)
Definition EXERCISE_XP_x2 (e : ExerciseType) : Z :=
  match e with
  | pushup => 4
  | squat => 4
  | situp => 3
  end.

(** [2 * (EXERCISE_XP[selectedExercise!] || 1)] *)
Definition rate_x2 (selected : option ExerciseType) : Z :=
  match selected with
  | Some e => EXERCISE_XP_x2 e
  | None => 2
  end.

(** [2 * RANK_MULTIPLIERS[rank]] *)
Definition RANK_MULTIPLIERS_x2 (r : Rank) : Z :=
  match r with
  | rank_E => 2
  | rank_D => 3
  | rank_C => 4
  | rank_B => 5
  | rank_A => 6
  | rank_S => 7
  | rank_SS => 8
  end.

(** [Math.floor(reps * (EXERCISE_XP[selectedExercise!] || 1))] *)
Definition baseXP (reps : Z) (selected : option ExerciseType) : Z :=
  (reps * rate_x2 selected) / 2.

(** [Math.floor(baseXP * multiplier)] *)
Definition xpEarned (reps : Z) (selected : option ExerciseType) (r : Rank)
  : Z :=
  (baseXP reps selected * RANK_MULTIPLIERS_x2 r) / 2.

(** [!sessionStartTime]: true of [null] and of 0 *)
Definition notStarted (st : State) : bool :=
  match sessionStartTime st with
  | Some t => (t =? 0)%Z
  | None => true
  end.

(** The experience [handleEndSession] awards, [None] when the guard
    [!user || !sessionStartTime || reps < requiredReps] returns early. *)
Definition handleEndSession (props : Props) (st : State) : option Z :=
  if negb (user st) || notStarted st || (reps st <? required props)%Z
  then None
  else Some (xpEarned (reps st) (selectedExercise st) (userRank props)).

(** [2 * exercise.xpPerRep] for the entry of [EXERCISES] with this id *)
Definition xpPerRep_x2 (e : ExerciseType) : Z :=
  match e with
  | pushup => 4
  | squat => 4
  | situp => 3
  end.

(** The "+n XP/rep" of an exercise card:
    [Math.floor(exercise.xpPerRep * multiplier)]. *)
Definition xpPerRepShown (e : ExerciseType) (r : Rank) : Z :=
  (xpPerRep_x2 e * RANK_MULTIPLIERS_x2 r) / 4.

End TrainingModal.

(** The dashboard's modal ([requiredReps = 15]) at rank C, and a session of
    fifteen sit-ups in it. *)
Definition dashboardModal : TrainingModal.Props :=
  TrainingModal.mkProps TrainingModal.rank_C (Some 15).

Definition fifteenSitups : TrainingModal.State :=
  TrainingModal.mkState true (Some situp) 15 (Some 1700000000000).

(** ** The awakening test ([App.calculateStatsFromAnswers])

    The function takes a [number[]]; the model covers integer answers,
    on which [Math.round(sum * 4)] is [sum * 4]. *)

Module App.

Record Stats := mkStats {
  mind : Z; body : Z; discipline : Z; lifestyle : Z; willpower : Z; focus : Z
}.

(** [answers.slice(a, b)] for [0 <= a <= b] *)
Definition slice (answers : list Z) (a b : nat) : list Z :=
  firstn (b - a) (skipn a answers).

(** [xs.reduce((a, b) => a + b, 0)] *)
Definition total (xs : list Z) : Z := fold_left Z.add xs 0.

Definition calculateStatsFromAnswers (answers : list Z) : Stats :=
  let mind := slice answers 0 5 in
  let body := slice answers 10 15 in
  let discipline := slice answers 15 20 in
  let willpower := slice answers 20 25 in
  let habits := slice answers 25 30 in
  {| mind := total mind * 4;
     body := total body * 4;
     discipline := total discipline * 4;
     lifestyle := total habits * 4;
     willpower := total willpower * 4;
     focus := total willpower * 4 |}.

End App.

(** ** The VAPID key helper ([useNotifications.urlBase64ToUint8Array])

    A string is its list of UTF-16 code units; [atob] is the browser's and
    returns [None] where it throws. *)

Module Notifications.

(** ['='.repeat((4 - base64String.length % 4) % 4)] *)
Definition padding (base64String : list N) : list N :=
  repeat 61%N ((4 - List.length base64String mod 4) mod 4)%nat.

(** [.replace(/-/g, '+').replace(/_/g, '/')] *)
Definition standardAlphabet (s : list N) : list N :=
  map (fun c => if (c =? 95)%N then 47%N else c)
      (map (fun c => if (c =? 45)%N then 43%N else c) s).

Definition base64 (base64String : list N) : list N :=
  standardAlphabet (base64String ++ padding base64String).

Definition urlBase64ToUint8Array (atob : list N -> option (list N))
  (base64String : list N) : option (list N) :=
  match atob (base64 base64String) with
  | Some rawData => Some (map (fun c => (c mod 256)%N) rawData)
  | None => None
  end.

End Notifications.

(** ** Further vocabulary: what a run has shown so far *)

(** Every string a detector can write into [formQuality]. *)
Definition messages (e : ExerciseType) : list string :=
  [ positionMessage e; lowVisibilityMessage e; incompleteMessage e;
    successMessage; readyMessage e ]
  ++ match e with
     | pushup => [ "Perfect form! Keep going"; "Good form - go lower";
                   "Go lower for full rep" ]
     | squat => [ "Excellent depth!"; "Good depth - keep going";
                  "Go lower for full squat" ]
     | situp => [ "Great curl! Complete it"; "Keep curling up" ]
     end.

(** A call of the camera that, if it forwards feedback, forwards one of
    the exercise's messages. *)
Definition carriesMessage (e : ExerciseType) (c : LiveTrainingCamera.Call)
  : Prop :=
  match c with
  | LiveTrainingCamera.onFormUpdate s => In s (messages e)
  | _ => True
  end.

(** A frame that passes the gate with its metric below the end threshold,
    and a frame that does not pass the gate. *)
Definition downTracked `{JSMath} (e : ExerciseType) (pose : Pose) : bool :=
  match frameOf e pose with
  | Tracked m => (m <? endThreshold e)%float
  | _ => false
  end.

Definition gated `{JSMath} (e : ExerciseType) (pose : Pose) : bool :=
  match frameOf e pose with
  | Tracked _ => false
  | _ => true
  end.


(** A binary64 value that is NaN, a zero, or positive: the reading of
    [Prim2SF] of a non-negative number. *)
Definition SFnonneg (f : spec_float) : Prop :=
  match f with
  | S754_nan | S754_zero _ => True
  | S754_infinity s | S754_finite s _ _ => s = false
  end.

(** An angle-like reading that is NaN or at most 180. *)
Definition capped (u : float) : Prop :=
  is_nan u = true \/ (u <=? 180)%float = true.

(** The number of [true] flags in the results of a run. *)
Definition trues (results : list bool) : Z :=
  Z.of_nat (List.length (filter (fun r => r) results)).

(** The two far ends of each tracked limb, left and right: shoulder and
    wrist for the push-up, hip and ankle for the squat. *)
Definition limbEnds (e : ExerciseType) : list (nat * nat) :=
  match e with
  | pushup => [(5, 9); (6, 10)]
  | squat => [(11, 15); (12, 16)]
  | situp => []
  end%nat.

(** The bookkeeping invariant of a session: the reference frame of the
    debounce is never ahead of the frame counter, and every counted rep
    has used up 11 frames. *)
Definition paced (this : ExerciseDetector) : Prop :=
  lastRepFrameCount this <= frameCount this
  /\ 11 * lastReps this <= lastRepFrameCount this.

(** * Properties *)

Section Factorisation.
Context `{JSMath}.

Lemma detectRep_advance (e : ExerciseType) (pose : Pose) (this : ExerciseDetector) :
  detectRep e pose this = advance e (frameOf e pose) this.
Proof.
  destruct this as [reps down ang fq fc lr].
  destruct e; cbv [detectRep PushupDetector.detectRep SquatDetector.detectRep
    SitupDetector.detectRep frameOf essentialsVisible essential forallb visible
    confidence involved map metric withSide advance bind read ret
    set_lastReps set_isInDownPosition set_lastAngle set_formQuality
    set_frameCount set_lastRepFrameCount
    lastReps isInDownPosition lastAngle formQuality frameCount
    lastRepFrameCount minFormQuality startThreshold endThreshold
    framesBetweenReps positionMessage lowVisibilityMessage incompleteMessage
    successMessage readyMessage depthMessage andb].
  all: repeat match goal with
       | |- context [getKeypoint ?p ?i] => destruct (getKeypoint p i)
       end; try reflexivity.
  all: repeat match goal with
       | |- context [if ?b then _ else _] => destruct b eqn:?
       end; try reflexivity.
Qed.

End Factorisation.

(** ** Order facts on binary64 values

    Derived from the specification of the primitive comparisons. *)

Section FloatOrder.

Lemma SFcompare_Lt_trans (a b c : spec_float) :
  SFcompare a b = Some Lt -> SFcompare b c = Some Lt ->
  SFcompare a c = Some Lt.
Proof.
  destruct a as [sa|sa| |sa ma ea], b as [sb|sb| |sb mb eb],
    c as [sc|sc| |sc mc ec];
    try destruct sa; try destruct sb; try destruct sc; simpl; try congruence.
  all: fold (Pos.compare ma mb); fold (Pos.compare mb mc);
    fold (Pos.compare ma mc).
  all: destruct (Z.compare_spec ea eb), (Z.compare_spec eb ec),
    (Z.compare_spec ea ec); try congruence; try lia.
  all: destruct (Pos.compare_spec ma mb), (Pos.compare_spec mb mc),
    (Pos.compare_spec ma mc); simpl; try congruence; try lia.
Qed.

Lemma SFcompare_Lt_Gt (a b : spec_float) :
  SFcompare a b = Some Lt -> SFcompare b a = Some Gt.
Proof.
  destruct a as [sa|sa| |sa ma ea], b as [sb|sb| |sb mb eb];
    try destruct sa; try destruct sb; simpl; try congruence.
  all: fold (Pos.compare ma mb); fold (Pos.compare mb ma).
  all: destruct (Z.compare_spec ea eb), (Z.compare_spec eb ea);
    try congruence; try lia.
  all: destruct (Pos.compare_spec ma mb), (Pos.compare_spec mb ma);
    simpl; try congruence; try lia.
Qed.


Lemma ltb_trans (u v w : float) :
  (u <? v)%float = true -> (v <? w)%float = true -> (u <? w)%float = true.
Proof.
  rewrite !ltb_spec. unfold SFltb.
  destruct (SFcompare (Prim2SF u) (Prim2SF v)) as [[]|] eqn:E1;
    try discriminate.
  destruct (SFcompare (Prim2SF v) (Prim2SF w)) as [[]|] eqn:E2;
    try discriminate.
  now rewrite (SFcompare_Lt_trans _ _ _ E1 E2).
Qed.

Lemma ltb_asym (u v : float) :
  (u <? v)%float = true -> (v <? u)%float = false.
Proof.
  rewrite !ltb_spec. unfold SFltb.
  destruct (SFcompare (Prim2SF u) (Prim2SF v)) as [[]|] eqn:E1;
    try discriminate.
  now rewrite (SFcompare_Lt_Gt _ _ E1).
Qed.

Lemma ltb_leb (u v : float) :
  (u <? v)%float = true -> (u <=? v)%float = true.
Proof.
  rewrite ltb_spec, leb_spec. unfold SFltb, SFleb.
  destruct (SFcompare _ _) as [[]|]; congruence.
Qed.



(** Below a value that is below [c], hence not above [c]. *)
Lemma ltb_below (c c' m : float) :
  (m <? c')%float = true -> (c' <? c)%float = true ->
  (m <? c)%float = true /\ (c <? m)%float = false.
Proof.
  intros H1 H2. pose proof (ltb_trans _ _ _ H1 H2) as H3.
  split; [exact H3 | now apply ltb_asym].
Qed.

Lemma ltb_above (c c' m : float) :
  (c' <? m)%float = true -> (c <? c')%float = true ->
  (c <? m)%float = true /\ (m <? c)%float = false.
Proof.
  intros H1 H2. pose proof (ltb_trans _ _ _ H2 H1) as H3.
  split; [exact H3 | now apply ltb_asym].
Qed.

Lemma SFcompare_le_trans (a b c : spec_float) :
  SFcompare a b = Some Lt \/ SFcompare a b = Some Eq ->
  SFcompare b c = Some Lt \/ SFcompare b c = Some Eq ->
  SFcompare a c = Some Lt \/ SFcompare a c = Some Eq.
Proof.
  destruct a as [sa|sa| |sa ma ea], b as [sb|sb| |sb mb eb],
    c as [sc|sc| |sc mc ec];
    try destruct sa; try destruct sb; try destruct sc; simpl;
    intros [Hab|Hab] [Hbc|Hbc]; try congruence; auto.
  all: revert Hab Hbc.
  all: fold (Pos.compare ma mb); fold (Pos.compare mb mc);
    fold (Pos.compare ma mc).
  all: destruct (Z.compare_spec ea eb), (Z.compare_spec eb ec),
    (Z.compare_spec ea ec); try congruence; try lia; auto.
  all: destruct (Pos.compare_spec ma mb), (Pos.compare_spec mb mc),
    (Pos.compare_spec ma mc); simpl; try congruence; try lia; auto.
Qed.

Lemma leb_spec_cases (u v : float) :
  (u <=? v)%float = true <->
  (SFcompare (Prim2SF u) (Prim2SF v) = Some Lt
   \/ SFcompare (Prim2SF u) (Prim2SF v) = Some Eq).
Proof.
  rewrite leb_spec. unfold SFleb.
  destruct (SFcompare (Prim2SF u) (Prim2SF v)) as [[]|]; split;
    intros Hyp; auto; try discriminate; destruct Hyp; discriminate.
Qed.

Lemma leb_trans (u v w : float) :
  (u <=? v)%float = true -> (v <=? w)%float = true -> (u <=? w)%float = true.
Proof.
  rewrite !leb_spec_cases. apply SFcompare_le_trans.
Qed.


Lemma ltb_false_leb (u v : float) :
  is_nan u = false -> is_nan v = false ->
  (u <? v)%float = false -> (v <=? u)%float = true.
Proof.
  unfold is_nan. rewrite ltb_spec, leb_spec, !eqb_spec.
  unfold SFltb, SFleb, SFeqb.
  destruct (Prim2SF u) as [su|su| |su mu eu], (Prim2SF v) as [sv|sv| |sv mv ev];
    try destruct su; try destruct sv; simpl; try discriminate; auto.
  all: intros _ _.
  all: fold (Pos.compare mu mv); fold (Pos.compare mv mu).
  all: destruct (Z.compare_spec eu ev), (Z.compare_spec ev eu);
    try congruence; try lia; auto.
  all: destruct (Pos.compare_spec mu mv), (Pos.compare_spec mv mu);
    simpl; try congruence; try lia; auto.
Qed.


End FloatOrder.

(** ** The transition, case by case *)

Section Machine.
Context `{JSMath}.

Lemma framesBetweenReps_10 (e : ExerciseType) : framesBetweenReps e = 10.
Proof. destruct e; reflexivity. Qed.

Lemma advance_reps (e : ExerciseType) (f : Frame) (this : ExerciseDetector) :
  lastReps (snd (advance e f this))
  = lastReps this + (if fst (advance e f this) then 1 else 0).
Proof.
  destruct f as [|m|m]; simpl; try lia.
  destruct (isInDownPosition this && negb (m <? endThreshold e)%float);
    [|simpl; lia].
  destruct ((startThreshold e <? m)%float && _); simpl; lia.
Qed.

Lemma advance_frameCount (e : ExerciseType) (f : Frame) (this : ExerciseDetector) :
  frameCount (snd (advance e f this)) = frameCount this + 1.
Proof.
  destruct f as [|m|m]; simpl; try reflexivity.
  destruct (isInDownPosition this && negb (m <? endThreshold e)%float);
    [|reflexivity].
  destruct ((startThreshold e <? m)%float && _); reflexivity.
Qed.

(** The debounce window: while it is open nothing is counted and the
    reference frame stays. *)
Lemma advance_debounced (e : ExerciseType) (f : Frame) (this : ExerciseDetector) :
  frameCount this + 1 - lastRepFrameCount this <= framesBetweenReps e ->
  fst (advance e f this) = false
  /\ lastRepFrameCount (snd (advance e f this)) = lastRepFrameCount this.
Proof.
  intros Hw.
  destruct f as [|m|m]; simpl; try (split; reflexivity).
  destruct (isInDownPosition this && negb (m <? endThreshold e)%float);
    [|split; reflexivity].
  replace (framesBetweenReps e <? frameCount this + 1 - lastRepFrameCount this)%Z
    with false by (symmetry; apply Z.ltb_ge; lia).
  rewrite andb_false_r. split; reflexivity.
Qed.

Lemma feed_cons (e : ExerciseType) (pose : Pose) (poses : list Pose)
  (this : ExerciseDetector) :
  feed e (pose :: poses) this
  = (fst (detectRep e pose this)
       :: fst (feed e poses (snd (detectRep e pose this))),
     snd (feed e poses (snd (detectRep e pose this)))).
Proof.
  cbn [feed]. unfold bind. destruct (detectRep e pose this) as [r this1].
  cbn [fst snd]. destruct (feed e poses this1) as [rs this2]. reflexivity.
Qed.

Lemma feed_app (e : ExerciseType) (poses more : list Pose) (this : ExerciseDetector) :
  feed e (poses ++ more) this
  = (fst (feed e poses this) ++ fst (feed e more (snd (feed e poses this))),
     snd (feed e more (snd (feed e poses this)))).
Proof.
  revert this. induction poses as [|pose poses IH]; intros this.
  - simpl. now destruct (feed e more this).
  - rewrite <- app_comm_cons, !feed_cons, IH. reflexivity.
Qed.

Lemma feed_reps_le (e : ExerciseType) (poses : list Pose) (this : ExerciseDetector) :
  lastReps this <= lastReps (snd (feed e poses this)).
Proof.
  revert this. induction poses as [|pose poses IH]; intros this.
  - simpl. lia.
  - rewrite feed_cons. simpl. specialize (IH (snd (detectRep e pose this))).
    rewrite detectRep_advance in *.
    pose proof (advance_reps e (frameOf e pose) this) as Hr.
    destruct (fst (advance e (frameOf e pose) this)); lia.
Qed.

Lemma feed_debounced (e : ExerciseType) (poses : list Pose) (this : ExerciseDetector) :
  frameCount this + Z.of_nat (List.length poses) - lastRepFrameCount this
    <= framesBetweenReps e ->
  Forall (fun r => r = false) (fst (feed e poses this))
  /\ lastReps (snd (feed e poses this)) = lastReps this.
Proof.
  revert this. induction poses as [|pose poses IH]; intros this Hw.
  - simpl. split; [constructor | reflexivity].
  - rewrite feed_cons. simpl fst. simpl snd.
    cbn [List.length] in Hw. rewrite Nat2Z.inj_succ in Hw.
    rewrite detectRep_advance.
    destruct (advance_debounced e (frameOf e pose) this) as [Hr Hl]; [lia|].
    pose proof (advance_reps e (frameOf e pose) this) as Hreps.
    pose proof (advance_frameCount e (frameOf e pose) this) as Hfc.
    rewrite Hr in Hreps.
    destruct (IH (snd (advance e (frameOf e pose) this))) as [IH1 IH2];
      [rewrite Hfc, Hl; lia|].
    split; [constructor; assumption | lia].
Qed.

End Machine.

(** ** The confidence gate *)

Section Gate.
Context `{JSMath}.

Lemma visible_false_iff (pose : Pose) (i : nat) :
  visible pose i = false <->
  (forall kp, nth_error (keypoints pose) i = Some kp ->
              (0.3 <? score kp)%float = false).
Proof.
  unfold visible, getKeypoint.
  destruct (nth_error (keypoints pose) i) as [kp|].
  - destruct (0.3 <? score kp)%float eqn:E; split; intro Hyp;
      try discriminate; try reflexivity.
    + specialize (Hyp kp eq_refl). congruence.
    + intros kp' [= <-]. exact E.
  - split; [intros _ kp [=] | reflexivity].
Qed.

Lemma getKeypoint_out_of_range (pose : Pose) (i : nat) :
  (List.length (keypoints pose) <= i)%nat -> getKeypoint pose i = None.
Proof.
  intro Hlen. unfold getKeypoint.
  now rewrite (proj2 (nth_error_None (keypoints pose) i) Hlen).
Qed.

Lemma frameOf_missing (e : ExerciseType) (pose : Pose) (i : nat) :
  In i (essential e) -> visible pose i = false -> frameOf e pose = Untracked.
Proof.
  intros Hin Hv. unfold frameOf.
  destruct (essentialsVisible e pose) eqn:E; [|reflexivity].
  unfold essentialsVisible in E. rewrite forallb_forall in E.
  rewrite (E i Hin) in Hv. discriminate.
Qed.

Lemma frameOf_low (e : ExerciseType) (pose : Pose) :
  (confidence e pose <? minFormQuality e)%float = true ->
  frameOf e pose = Untracked \/ frameOf e pose = LowConfidence (metric e pose).
Proof.
  intro Hc. unfold frameOf. rewrite Hc.
  destruct (essentialsVisible e pose); [right | left]; reflexivity.
Qed.

Lemma frameOf_tracked (e : ExerciseType) (pose : Pose) :
  essentialsVisible e pose = true ->
  (confidence e pose <? minFormQuality e)%float = false ->
  frameOf e pose = Tracked (metric e pose).
Proof.
  intros Hv Hc. unfold frameOf. now rewrite Hv, Hc.
Qed.

Lemma frameOf_Tracked_inv (e : ExerciseType) (pose : Pose) (m : float) :
  frameOf e pose = Tracked m ->
  essentialsVisible e pose = true
  /\ (confidence e pose <? minFormQuality e)%float = false
  /\ m = metric e pose.
Proof.
  unfold frameOf.
  destruct (essentialsVisible e pose); [|discriminate].
  destruct (confidence e pose <? minFormQuality e)%float; [discriminate|].
  intros [= <-]. repeat split.
Qed.

End Gate.

(** ** Tracked frames, case by case *)

Section Tracked.
Context `{JSMath}.

Lemma advance_ready (e : ExerciseType) (m : float) (this : ExerciseDetector) :
  isInDownPosition this = false -> (m <? endThreshold e)%float = false ->
  advance e (Tracked m) this
  = (false, mkDetector (lastReps this) false m (readyMessage e)
              (frameCount this + 1) (lastRepFrameCount this)).
Proof. intros Hd He. simpl. now rewrite Hd, He. Qed.

Lemma advance_lower (e : ExerciseType) (m : float) (this : ExerciseDetector) :
  (m <? endThreshold e)%float = true ->
  advance e (Tracked m) this
  = (false, mkDetector (lastReps this) true m (depthMessage e m)
              (frameCount this + 1) (lastRepFrameCount this)).
Proof. intros He. simpl. now rewrite He, andb_false_r. Qed.

Lemma advance_count (e : ExerciseType) (m : float) (this : ExerciseDetector) :
  isInDownPosition this = true -> (m <? endThreshold e)%float = false ->
  (startThreshold e <? m)%float = true ->
  framesBetweenReps e < frameCount this + 1 - lastRepFrameCount this ->
  advance e (Tracked m) this
  = (true, mkDetector (lastReps this + 1) false m successMessage
             (frameCount this + 1) (frameCount this + 1)).
Proof.
  intros Hd He Hs Hw. simpl. rewrite Hd, He, Hs. simpl.
  now rewrite (proj2 (Z.ltb_lt _ _) Hw).
Qed.

Lemma advance_incomplete (e : ExerciseType) (m : float) (this : ExerciseDetector) :
  isInDownPosition this = true -> (m <? endThreshold e)%float = false ->
  (m <? startThreshold e)%float = true ->
  advance e (Tracked m) this
  = (false, mkDetector (lastReps this) false m (incompleteMessage e)
              (frameCount this + 1) (lastRepFrameCount this)).
Proof.
  intros Hd He Hs. simpl. rewrite Hd, He, Hs, (ltb_asym _ _ Hs). reflexivity.
Qed.

Lemma advance_true_iff (e : ExerciseType) (f : Frame) (this : ExerciseDetector) :
  fst (advance e f this) = true <->
  exists m, f = Tracked m
    /\ isInDownPosition this = true
    /\ (m <? endThreshold e)%float = false
    /\ (startThreshold e <? m)%float = true
    /\ framesBetweenReps e < frameCount this + 1 - lastRepFrameCount this.
Proof.
  split.
  - destruct f as [|m|m]; simpl; try discriminate.
    destruct (isInDownPosition this) eqn:Hd; simpl; [|discriminate].
    destruct (m <? endThreshold e)%float eqn:He; simpl; [discriminate|].
    destruct (startThreshold e <? m)%float eqn:Hs; simpl; [|discriminate].
    destruct (framesBetweenReps e <? frameCount this + 1 - lastRepFrameCount this)%Z
      eqn:Hw; simpl; [|discriminate].
    intros _. exists m. repeat split; try assumption. now apply Z.ltb_lt.
  - intros (m & -> & Hd & He & Hs & Hw).
    now rewrite advance_count.
Qed.

Lemma fullConfidence_tracked (e : ExerciseType) (pose : Pose) :
  fullConfidence pose -> frameOf e pose = Tracked (metric e pose).
Proof.
  destruct pose as [kps sc]. unfold fullConfidence. cbn [keypoints].
  intros [Hlen Hall].
  do 18 (destruct kps as [|[? ? ?] kps]; try discriminate Hlen).
  repeat match goal with
         | Hf : Forall _ (_ :: _) |- _ =>
           let Hs := fresh "Hs" in
           apply Forall_cons_iff in Hf; destruct Hf as [Hs Hf];
           cbn [score] in Hs; subst
         end.
  apply frameOf_tracked; destruct e; reflexivity.
Qed.

Lemma feed_full_cons (e : ExerciseType) (pose : Pose) (poses : list Pose)
  (this : ExerciseDetector) :
  fullConfidence pose ->
  feed e (pose :: poses) this
  = (fst (advance e (Tracked (metric e pose)) this)
       :: fst (feed e poses (snd (advance e (Tracked (metric e pose)) this))),
     snd (feed e poses (snd (advance e (Tracked (metric e pose)) this)))).
Proof.
  intros Hfull.
  now rewrite feed_cons, detectRep_advance, (fullConfidence_tracked e pose Hfull).
Qed.

Lemma near_above (v m c : float) :
  near v m = true -> (c <? v - 0.5)%float = true ->
  (c <? m)%float = true /\ (m <? c)%float = false.
Proof.
  unfold near. intros Hn Hc. apply andb_prop in Hn. destruct Hn as [Hlo _].
  exact (ltb_above c _ m Hlo Hc).
Qed.

Lemma near_below (v m c : float) :
  near v m = true -> (v + 0.5 <? c)%float = true ->
  (m <? c)%float = true /\ (c <? m)%float = false.
Proof.
  unfold near. intros Hn Hc. apply andb_prop in Hn. destruct Hn as [_ Hhi].
  exact (ltb_below c _ m Hhi Hc).
Qed.

End Tracked.

(** One frame of a scenario: the innermost pending transition, on a state
    that is known field by field, is replaced by the outcome [lem] gives. *)
Ltac frame lem :=
  match goal with
  | |- context [advance ?e (Tracked ?m) (mkDetector ?a ?b ?c ?d ?f ?g)] =>
    rewrite (lem e m (mkDetector a b c d f g))
      by first [ reflexivity | eassumption
               | cbn; unfold PushupDetector.framesBetweenReps; lia ];
    cbn [fst snd]
  end.

(** ** The angle at a vertex *)

Section Clamp.




End Clamp.

Section Angle.
Context `{JSMath}.



End Angle.

(** ** Rounding to nearest stays below a number of the format *)

Section Rounding.








(** A target [mB * 2 ^ eB] with a full mantissa. *)
Variables mB eB : Z.
Hypothesis HmB : 0 < mB < 2 ^ 53.
Hypothesis HeB : -1074 <= eB <= 971.




End Rounding.

(** ** From radians to degrees *)

Section Degrees.




End Degrees.

(** * Claims *)

(** C1, as the code has it.  A push-up detector that is outside the down
    phase and at least 6 frames past its last counted rep (or past its
    construction) counts exactly one rep over six full-confidence frames at
    about 170, 160, 20, 15, 160 and 170 degrees: [detectRep] returns [true]
    on the 5th frame and on no other, and the feedback after the 5th frame
    is "Perfect! Rep counted". *)
Theorem C1_pushup_scenario `{JSMath} (p1 p2 p3 p4 p5 p6 : Pose)
  (this : ExerciseDetector) :
  fullConfidence p1 -> fullConfidence p2 -> fullConfidence p3 ->
  fullConfidence p4 -> fullConfidence p5 -> fullConfidence p6 ->
  near 170 (metric pushup p1) = true ->
  near 160 (metric pushup p2) = true ->
  near 20 (metric pushup p3) = true ->
  near 15 (metric pushup p4) = true ->
  near 160 (metric pushup p5) = true ->
  near 170 (metric pushup p6) = true ->
  isInDownPosition this = false ->
  6 <= frameCount this - lastRepFrameCount this ->
  fst (feed pushup [p1; p2; p3; p4; p5; p6] this)
  = [false; false; false; false; true; false]
  /\ fst (getReps (snd (feed pushup [p1; p2; p3; p4; p5; p6] this)))
     = fst (getReps this) + 1
  /\ fst (getFormFeedback (snd (feed pushup [p1; p2; p3; p4; p5] this)))
     = "Perfect! Rep counted"%string.
Proof.
  intros F1 F2 F3 F4 F5 F6 N1 N2 N3 N4 N5 N6 Hd Hw.
  destruct (near_above _ _ 25 N1 eq_refl) as [_ E1].
  destruct (near_above _ _ 25 N2 eq_refl) as [_ E2].
  destruct (near_below _ _ 25 N3 eq_refl) as [E3 _].
  destruct (near_below _ _ 25 N4 eq_refl) as [E4 _].
  destruct (near_above _ _ 25 N5 eq_refl) as [_ E5].
  destruct (near_above _ _ 150 N5 eq_refl) as [S5 _].
  destruct (near_above _ _ 25 N6 eq_refl) as [_ E6].
  destruct this as [reps down ang fq fc lr]. cbn in Hd, Hw. subst down.
  rewrite !(feed_full_cons pushup p1), !(feed_full_cons pushup p2),
    !(feed_full_cons pushup p3), !(feed_full_cons pushup p4),
    !(feed_full_cons pushup p5), (feed_full_cons pushup p6) by assumption.
  frame advance_ready. frame advance_ready. frame advance_lower.
  frame advance_lower. frame advance_count. frame advance_ready.
  repeat split.
Qed.

Lemma C1_pushup_scenario_witness :
  let warm := snd (@feed V8.host pushup warmUp new_ExerciseDetector) in
  (isInDownPosition warm = false
   /\ 6 <= frameCount warm - lastRepFrameCount warm)
  /\ (near 170 (@metric V8.host pushup arms170) = true
      /\ near 160 (@metric V8.host pushup arms160) = true
      /\ near 20 (@metric V8.host pushup arms20) = true
      /\ near 15 (@metric V8.host pushup arms15) = true)
  /\ fst (@feed V8.host pushup
            [arms170; arms160; arms20; arms15; arms160; arms170] warm)
     = [false; false; false; false; true; false].
Proof.
  assert (F : forall dx dy ex ey, fullConfidence (body dx dy ex ey)).
  { intros. split; [reflexivity | repeat constructor]. }
  cbv zeta. split; [split; [reflexivity | vm_compute; discriminate]|].
  split; [repeat split|].
  exact (proj1 (@C1_pushup_scenario V8.host arms170 arms160 arms20 arms15
           arms160 arms170
           (snd (@feed V8.host pushup warmUp new_ExerciseDetector))
           (F _ _ _ _) (F _ _ _ _) (F _ _ _ _) (F _ _ _ _)
           (F _ _ _ _) (F _ _ _ _) eq_refl eq_refl eq_refl eq_refl eq_refl
           eq_refl eq_refl ltac:(vm_compute; discriminate))).
Defined.

(** C1, as stated, fails: on a new push-up detector the six frames, all at
    full confidence and at 170.16, 160.11, 19.89, 15.00, 160.11 and 170.16
    degrees, count nothing.  The 5th call is only the 5th frame of the
    session, inside the 10-frame window that follows its start; it returns
    [false] and leaves the feedback of the 4th frame in place. *)
Lemma C1_fresh_detector_counts_nothing :
  let frames := [arms170; arms160; arms20; arms15; arms160; arms170] in
  Forall fullConfidence frames
  /\ map (@metric V8.host pushup) frames
     = [170.15886824036562; 160.11483488614456; 19.885165113855432;
        15.004920382860252; 160.11483488614456; 170.15886824036562]%float
  /\ forallb (fun vp => near (fst vp) (@metric V8.host pushup (snd vp)))
       (combine [170; 160; 20; 15; 160; 170]%float frames) = true
  /\ fst (@feed V8.host pushup frames new_ExerciseDetector)
     = [false; false; false; false; false; false]
  /\ fst (getReps (snd (@feed V8.host pushup frames new_ExerciseDetector))) = 0
  /\ fst (getFormFeedback
            (snd (@feed V8.host pushup (firstn 5 frames) new_ExerciseDetector)))
     = "Good form - go lower"%string
  /\ nth 4 (fst (@feed V8.host pushup frames new_ExerciseDetector)) true
     <> true.
Proof.
  cbv zeta. split.
  - repeat constructor.
  - repeat split. vm_compute. discriminate.
Qed.

(** C2. For every detector and every sequence of [detectRep] calls,
    [getReps()] never decreases: one call adds 1 exactly when it returns
    [true] and adds nothing otherwise, so along any run the count after a
    prefix is at most the count after a longer prefix. *)
Theorem C2_getReps_monotone `{JSMath} (e : ExerciseType) :
  (forall pose this,
      fst (getReps (snd (detectRep e pose this)))
      = fst (getReps this) + (if fst (detectRep e pose this) then 1 else 0))
  /\ (forall poses more this,
      fst (getReps this) <= fst (getReps (snd (feed e poses this)))
      /\ fst (getReps (snd (feed e poses this)))
         <= fst (getReps (snd (feed e (poses ++ more) this)))).
Proof.
  split.
  - intros pose this. rewrite detectRep_advance. apply advance_reps.
  - intros poses more this. split.
    + apply feed_reps_le.
    + rewrite feed_app. cbn [snd]. apply feed_reps_le.
Qed.

(** C3, as the code has it.  A rep is counted on a frame if and only if the
    frame passes the confidence gate, the detector was in the down phase,
    the frame's metric is not below [endPositionThreshold], it is above
    [startPositionThreshold], and MORE than [framesBetweenReps] (10) frames
    separate this frame from the last counted rep (or from the start of the
    session): a transition exactly 10 frames after the previous counted rep
    is not counted, one 11 frames after it is. *)
Theorem C3_rep_counted_iff `{JSMath} (e : ExerciseType) (pose : Pose)
  (this : ExerciseDetector) :
  (fst (detectRep e pose this) = true <->
   essentialsVisible e pose = true
   /\ (confidence e pose <? minFormQuality e)%float = false
   /\ isInDownPosition this = true
   /\ (metric e pose <? endThreshold e)%float = false
   /\ (startThreshold e <? metric e pose)%float = true
   /\ framesBetweenReps e < frameCount this + 1 - lastRepFrameCount this)
  /\ (frameCount this + 1 - lastRepFrameCount this = framesBetweenReps e ->
      fst (detectRep e pose this) = false)
  /\ (frameCount this + 1 - lastRepFrameCount this = framesBetweenReps e + 1 ->
      essentialsVisible e pose = true ->
      (confidence e pose <? minFormQuality e)%float = false ->
      isInDownPosition this = true ->
      (startThreshold e <? metric e pose)%float = true ->
      (metric e pose <? endThreshold e)%float = false ->
      fst (detectRep e pose this) = true).
Proof.
  rewrite detectRep_advance.
  assert (Hiff : fst (advance e (frameOf e pose) this) = true <->
    essentialsVisible e pose = true
    /\ (confidence e pose <? minFormQuality e)%float = false
    /\ isInDownPosition this = true
    /\ (metric e pose <? endThreshold e)%float = false
    /\ (startThreshold e <? metric e pose)%float = true
    /\ framesBetweenReps e < frameCount this + 1 - lastRepFrameCount this).
  { rewrite advance_true_iff. split.
    - intros (m & Hf & Hd & He & Hs & Hw).
      apply frameOf_Tracked_inv in Hf. destruct Hf as (Hv & Hc & ->).
      repeat split; assumption.
    - intros (Hv & Hc & Hd & He & Hs & Hw).
      exists (metric e pose). rewrite (frameOf_tracked e pose Hv Hc).
      repeat split; assumption. }
  split; [exact Hiff|]. split.
  - intros Hten.
    destruct (fst (advance e (frameOf e pose) this)); [|reflexivity].
    destruct (proj1 Hiff eq_refl) as (_ & _ & _ & _ & _ & Hw). lia.
  - intros Hel Hv Hc Hd Hs He. apply Hiff. repeat split; try assumption. lia.
Qed.

Lemma C3_rep_counted_iff_witness :
  let this := snd (@feed V8.host situp session20 new_ExerciseDetector) in
  let that := snd (@feed V8.host situp (repeat downFrame 10)
                     new_ExerciseDetector) in
  (frameCount this + 1 - lastRepFrameCount this = framesBetweenReps situp
   /\ fst (@detectRep V8.host situp upFrame this) = false)
  /\ (frameCount that + 1 - lastRepFrameCount that
       = framesBetweenReps situp + 1
      /\ isInDownPosition that = true
      /\ (startThreshold situp <? @metric V8.host situp upFrame)%float = true
      /\ fst (@detectRep V8.host situp upFrame that) = true).
Proof.
  cbv zeta. split; split; [reflexivity| |reflexivity|].
  - exact (proj1 (proj2 (@C3_rep_counted_iff V8.host situp upFrame
             (snd (@feed V8.host situp session20 new_ExerciseDetector))))
             eq_refl).
  - split; [reflexivity|]. split; [reflexivity|].
    exact (proj2 (proj2 (@C3_rep_counted_iff V8.host situp upFrame
             (snd (@feed V8.host situp (repeat downFrame 10)
                     new_ExerciseDetector))))
             eq_refl eq_refl eq_refl eq_refl eq_refl eq_refl).
Defined.

(** C3, as stated, fails: in this sit-up session a rep is counted on frame
    11; frame 20 is a down frame and frame 21 an up frame well above the
    start threshold, a transition exactly 10 frames after the counted rep,
    and it is not counted. *)
Lemma C3_transition_ten_frames_later_not_counted :
  let this := snd (@feed V8.host situp session20 new_ExerciseDetector) in
  fst (@feed V8.host situp session20 new_ExerciseDetector)
  = repeat false 10 ++ [true] ++ repeat false 9
  /\ lastRepFrameCount this = 11
  /\ frameCount this + 1 = 21
  /\ isInDownPosition this = true
  /\ @frameOf V8.host situp upFrame = Tracked 150
  /\ (150 <? endThreshold situp)%float = false
  /\ (startThreshold situp <? 150)%float = true
  /\ framesBetweenReps situp <= frameCount this + 1 - lastRepFrameCount this
  /\ fst (@detectRep V8.host situp upFrame this) = false.
Proof.
  cbv zeta. repeat split. vm_compute. discriminate.
Qed.

(** C4. On a frame where an essential landmark is missing (out of range, or
    with a score not above 0.3) or where the mean confidence of the visible
    involved landmarks is below 0.5, [detectRep] returns [false], the count
    is unchanged, the feedback is the positioning or the low-visibility
    message, and the phase flag keeps its value. *)
Theorem C4_gate_blocks_frame `{JSMath} (e : ExerciseType) (pose : Pose)
  (this : ExerciseDetector) :
  (exists i, In i (essential e) /\
     forall kp, nth_error (keypoints pose) i = Some kp ->
                (0.3 <? score kp)%float = false)
  \/ (confidence e pose <? minFormQuality e)%float = true ->
  fst (detectRep e pose this) = false
  /\ fst (getReps (snd (detectRep e pose this))) = fst (getReps this)
  /\ (fst (getFormFeedback (snd (detectRep e pose this))) = positionMessage e
      \/ fst (getFormFeedback (snd (detectRep e pose this)))
         = lowVisibilityMessage e)
  /\ isInDownPosition (snd (detectRep e pose this)) = isInDownPosition this.
Proof.
  intros Hgate. rewrite detectRep_advance.
  assert (Hf : frameOf e pose = Untracked
               \/ frameOf e pose = LowConfidence (metric e pose)).
  { destruct Hgate as [(i & Hin & Hi) | Hc].
    - left. apply (frameOf_missing e pose i Hin).
      now apply visible_false_iff.
    - now apply frameOf_low. }
  destruct Hf as [-> | ->]; simpl; auto.
Qed.

Lemma C4_gate_blocks_frame_witness :
  (confidence pushup dimUpFrame <? minFormQuality pushup)%float = true
  /\ fst (@detectRep V8.host pushup dimUpFrame new_ExerciseDetector) = false.
Proof.
  split; [reflexivity|].
  exact (proj1 (@C4_gate_blocks_frame V8.host pushup dimUpFrame
                  new_ExerciseDetector (or_intror eq_refl))).
Defined.

(** C5, as the code has it.  On a tracked frame with a down-to-not-down
    transition whose metric is strictly below [startPositionThreshold], the
    rep is not counted, the feedback is the exercise's incomplete-rep
    message and the phase flag flips to not-down.  For the push-up
    detector, starting outside the down phase, four full-confidence frames
    at about 170, 20, 100 and 170 degrees count no rep, and the feedback
    after the third is "Incomplete rep - extend fully". *)
Theorem C5_incomplete_rep `{JSMath} :
  (forall e pose this,
      essentialsVisible e pose = true ->
      (confidence e pose <? minFormQuality e)%float = false ->
      isInDownPosition this = true ->
      (metric e pose <? endThreshold e)%float = false ->
      (metric e pose <? startThreshold e)%float = true ->
      detectRep e pose this
      = (false, mkDetector (lastReps this) false (metric e pose)
                  (incompleteMessage e) (frameCount this + 1)
                  (lastRepFrameCount this)))
  /\ (forall p1 p2 p3 p4 this,
      fullConfidence p1 -> fullConfidence p2 ->
      fullConfidence p3 -> fullConfidence p4 ->
      near 170 (metric pushup p1) = true ->
      near 20 (metric pushup p2) = true ->
      near 100 (metric pushup p3) = true ->
      near 170 (metric pushup p4) = true ->
      isInDownPosition this = false ->
      fst (feed pushup [p1; p2; p3; p4] this) = [false; false; false; false]
      /\ fst (getReps (snd (feed pushup [p1; p2; p3; p4] this)))
         = fst (getReps this)
      /\ fst (getFormFeedback (snd (feed pushup [p1; p2; p3] this)))
         = "Incomplete rep - extend fully"%string).
Proof.
  split.
  - intros e pose this Hv Hc Hd He Hs.
    rewrite detectRep_advance, (frameOf_tracked e pose Hv Hc).
    now apply advance_incomplete.
  - intros p1 p2 p3 p4 this F1 F2 F3 F4 N1 N2 N3 N4 Hd.
    destruct (near_above _ _ 25 N1 eq_refl) as [_ E1].
    destruct (near_below _ _ 25 N2 eq_refl) as [E2 _].
    destruct (near_above _ _ 25 N3 eq_refl) as [_ E3].
    destruct (near_below _ _ 150 N3 eq_refl) as [S3 _].
    destruct (near_above _ _ 25 N4 eq_refl) as [_ E4].
    destruct this as [reps down ang fq fc lr]. cbn in Hd. subst down.
    rewrite !(feed_full_cons pushup p1), !(feed_full_cons pushup p2),
      !(feed_full_cons pushup p3), (feed_full_cons pushup p4) by assumption.
    frame advance_ready. frame advance_lower. frame advance_incomplete.
    frame advance_ready. repeat split.
Qed.

Lemma C5_incomplete_rep_witness :
  let this := snd (@feed V8.host pushup [arms170; arms20]
                     new_ExerciseDetector) in
  (essentialsVisible pushup arms100 = true
   /\ (confidence pushup arms100 <? minFormQuality pushup)%float = false
   /\ isInDownPosition this = true
   /\ (@metric V8.host pushup arms100 <? endThreshold pushup)%float = false
   /\ (@metric V8.host pushup arms100 <? startThreshold pushup)%float = true)
  /\ @detectRep V8.host pushup arms100 this
     = (false, mkDetector 0 false (@metric V8.host pushup arms100)
                 "Incomplete rep - extend fully" 3 0)
  /\ (fullConfidence arms170 /\ fullConfidence arms20
      /\ fullConfidence arms100)
  /\ (near 170 (@metric V8.host pushup arms170) = true
      /\ near 20 (@metric V8.host pushup arms20) = true
      /\ near 100 (@metric V8.host pushup arms100) = true)
  /\ fst (@feed V8.host pushup [arms170; arms20; arms100; arms170]
            new_ExerciseDetector)
     = [false; false; false; false].
Proof.
  assert (F : forall dx dy ex ey, fullConfidence (body dx dy ex ey)).
  { intros. split; [reflexivity | repeat constructor]. }
  cbv zeta. split; [repeat split|]. split.
  - exact (proj1 (@C5_incomplete_rep V8.host) pushup arms100
             (snd (@feed V8.host pushup [arms170; arms20]
                     new_ExerciseDetector))
             eq_refl eq_refl eq_refl eq_refl eq_refl).
  - split; [repeat split; apply F|]. split; [repeat split|].
    exact (proj1 (proj2 (@C5_incomplete_rep V8.host) arms170 arms20 arms100
             arms170 new_ExerciseDetector (F _ _ _ _) (F _ _ _ _) (F _ _ _ _)
             (F _ _ _ _) eq_refl eq_refl eq_refl eq_refl eq_refl)).
Defined.

(** C5, as stated, fails when the metric equals the start threshold: after
    a sit-up down frame, a frame whose proxy is exactly 140 makes the
    down-to-not-down transition and does not clear the threshold, no rep is
    counted and the flag flips, but the feedback is left as it was. *)
Lemma C5_no_message_at_the_threshold :
  let this := snd (@detectRep V8.host situp downFrame new_ExerciseDetector) in
  isInDownPosition this = true
  /\ @frameOf V8.host situp edgeFrame = Tracked 140
  /\ (140 <? endThreshold situp)%float = false
  /\ (startThreshold situp <? 140)%float = false
  /\ @detectRep V8.host situp edgeFrame this
     = (false, mkDetector 0 false 140 "Great curl! Complete it" 2 0)
  /\ fst (getFormFeedback (snd (@detectRep V8.host situp edgeFrame this)))
     <> incompleteMessage situp.
Proof.
  cbv zeta. repeat split. vm_compute. discriminate.
Qed.

(** The extent of what [reset()] misses.  It assigns five of the six
    fields of the constructor; [formQuality] is the one left out, so the
    state after [reset()] is that of a new detector except for this field,
    and the next [detectRep] call, which reads none of the old feedback,
    behaves as on a new detector. *)
Lemma reset_differs_in_formQuality_only `{JSMath} (this : ExerciseDetector) :
  snd (reset this) = mkDetector 0 false 0 (formQuality this) 0 0
  /\ fst (getReps (snd (reset this))) = fst (getReps new_ExerciseDetector)
  /\ fst (getReps (snd (reset this))) = 0
  /\ isInDownPosition (snd (reset this)) = false
  /\ frameCount (snd (reset this)) = 0
  /\ lastRepFrameCount (snd (reset this)) = 0
  /\ (forall e pose,
        detectRep e pose (snd (reset this))
        = detectRep e pose new_ExerciseDetector)
  /\ (forall e pose poses,
        feed e (pose :: poses) (snd (reset this))
        = feed e (pose :: poses) new_ExerciseDetector).
Proof.
  assert (Hstep : forall e pose,
             detectRep e pose (snd (reset this))
             = detectRep e pose new_ExerciseDetector).
  { intros e pose. rewrite !detectRep_advance.
    destruct (frameOf e pose); reflexivity. }
  repeat split; try assumption.
  intros e pose poses. now rewrite !feed_cons, Hstep.
Qed.

(** C6: the code falls short of the claim.  [reset()] re-assigns
    [lastReps], [isInDownPosition], [lastAngle], [frameCount] and
    [lastRepFrameCount] but not [formQuality], which the constructor sets
    to ["Good"].  On a push-up detector that has seen one frame without
    landmarks, [reset()] brings the count back to 0 while
    [getFormFeedback()] still returns that frame's message. *)
Lemma C6_reset_keeps_stale_feedback :
  let used := snd (@detectRep V8.host pushup emptyFrame new_ExerciseDetector) in
  fst (getReps (snd (reset used))) = 0
  /\ fst (getFormFeedback (snd (reset used)))
     = "Position body with arms visible"
  /\ fst (getFormFeedback new_ExerciseDetector) = "Good"
  /\ fst (getFormFeedback (snd (reset used)))
     <> fst (getFormFeedback new_ExerciseDetector).
Proof.
  repeat split. vm_compute. discriminate.
Qed.




(** C8, as the code has it.  On a frame that passes the confidence gate
    the phase flag after the call is [metric < endPositionThreshold],
    whatever the state before; on a frame that does not pass it (an
    essential landmark missing, or the aggregate confidence below 0.5) the
    flag keeps its previous value. *)
Theorem C8_phase_flag_after_call `{JSMath} (e : ExerciseType) (pose : Pose)
  (this : ExerciseDetector) :
  (essentialsVisible e pose = true ->
   (confidence e pose <? minFormQuality e)%float = false ->
   isInDownPosition (snd (detectRep e pose this))
   = (metric e pose <? endThreshold e)%float)
  /\ (essentialsVisible e pose = false
      \/ (confidence e pose <? minFormQuality e)%float = true ->
      isInDownPosition (snd (detectRep e pose this)) = isInDownPosition this).
Proof.
  rewrite detectRep_advance. split.
  - intros Hv Hc. rewrite (frameOf_tracked e pose Hv Hc). simpl.
    destruct (isInDownPosition this && negb (metric e pose <? endThreshold e)%float);
      [|reflexivity].
    destruct ((startThreshold e <? metric e pose)%float && _); reflexivity.
  - unfold frameOf. intros [-> | Hc]; [reflexivity|].
    rewrite Hc. destruct (essentialsVisible e pose); reflexivity.
Qed.

Lemma C8_phase_flag_after_call_witness :
  (essentialsVisible situp downFrame = true
   /\ (confidence situp downFrame <? minFormQuality situp)%float = false
   /\ isInDownPosition
        (snd (@detectRep V8.host situp downFrame new_ExerciseDetector))
      = (@metric V8.host situp downFrame <? endThreshold situp)%float)
  /\ ((confidence situp dimUpFrame <? minFormQuality situp)%float = true
      /\ isInDownPosition
           (snd (@detectRep V8.host situp dimUpFrame new_ExerciseDetector))
         = isInDownPosition new_ExerciseDetector).
Proof.
  split.
  - split; [reflexivity|]. split; [reflexivity|].
    exact (proj1 (@C8_phase_flag_after_call V8.host situp downFrame
                    new_ExerciseDetector) eq_refl eq_refl).
  - split; [reflexivity|].
    exact (proj2 (@C8_phase_flag_after_call V8.host situp dimUpFrame
                    new_ExerciseDetector) (or_intror eq_refl)).
Defined.

(** C8, as stated, fails: a sit-up frame in the down phase followed by a
    reclined frame seen at confidence 0.4 leaves the flag set, although the
    second frame's metric (150, recorded as the last angle) is not below
    the end threshold. *)
Lemma C8_flag_survives_gated_frame :
  let this1 := snd (@detectRep V8.host situp downFrame new_ExerciseDetector) in
  let this2 := snd (@detectRep V8.host situp dimUpFrame this1) in
  isInDownPosition this2 = true
  /\ lastAngle this2 = @metric V8.host situp dimUpFrame
  /\ (@metric V8.host situp dimUpFrame <? endThreshold situp)%float = false
  /\ isInDownPosition this2
     <> (@metric V8.host situp dimUpFrame <? endThreshold situp)%float.
Proof.
  repeat split. vm_compute. discriminate.
Qed.

(** C9. Started from a new detector, or from one just reset, no rep is
    counted during the first 10 calls, whatever the poses; and the bound is
    met: ten down frames and an up frame give [true] on the 11th call. *)
Theorem C9_no_rep_in_first_ten_calls `{JSMath} (e : ExerciseType)
  (poses : list Pose) (this : ExerciseDetector) :
  (List.length poses <= 10)%nat ->
  (Forall (fun r => r = false) (fst (feed e poses new_ExerciseDetector))
   /\ fst (getReps (snd (feed e poses new_ExerciseDetector))) = 0)
  /\ (Forall (fun r => r = false) (fst (feed e poses (snd (reset this))))
      /\ fst (getReps (snd (feed e poses (snd (reset this))))) = 0)
  /\ fst (feed e (repeat downFrame 10 ++ [upFrame]) new_ExerciseDetector)
     = repeat false 10 ++ [true].
Proof.
  intros Hlen. split; [|split].
  - apply (feed_debounced e poses new_ExerciseDetector).
    rewrite framesBetweenReps_10. cbn. lia.
  - apply (feed_debounced e poses (snd (reset this))).
    rewrite framesBetweenReps_10. cbn. lia.
  - destruct e; vm_compute; reflexivity.
Qed.

Lemma C9_no_rep_in_first_ten_calls_witness :
  (List.length (repeat downFrame 9 ++ [upFrame]) <= 10)%nat
  /\ Forall (fun r => r = false)
       (fst (@feed V8.host squat (repeat downFrame 9 ++ [upFrame])
               new_ExerciseDetector)).
Proof.
  split; [cbn; lia|].
  exact (proj1 (proj1 (@C9_no_rep_in_first_ten_calls V8.host squat
           (repeat downFrame 9 ++ [upFrame]) new_ExerciseDetector
           ltac:(cbn; lia)))).
Defined.

(** C10, as the code has it.  [detectRep] is defined on every pose: a
    landmark index past the end of the keypoint list gives an absent
    keypoint, and when that landmark is an essential one the call returns
    [false] with the positioning message, having only advanced the frame
    counter.  (An absent supporting landmark does not end the frame.) *)
Theorem C10_out_of_range_landmarks `{JSMath} (e : ExerciseType) (pose : Pose)
  (this : ExerciseDetector) :
  (forall i, (List.length (keypoints pose) <= i)%nat ->
             getKeypoint pose i = None)
  /\ ((exists i, In i (essential e)
                 /\ (List.length (keypoints pose) <= i)%nat) ->
      detectRep e pose this
      = (false, mkDetector (lastReps this) (isInDownPosition this)
                  (lastAngle this) (positionMessage e)
                  (frameCount this + 1) (lastRepFrameCount this))).
Proof.
  split.
  - intros i. apply getKeypoint_out_of_range.
  - intros (i & Hin & Hlen). rewrite detectRep_advance.
    rewrite (frameOf_missing e pose i Hin); [reflexivity|].
    unfold visible. now rewrite getKeypoint_out_of_range.
Qed.

Lemma C10_out_of_range_landmarks_witness :
  (exists i, In i (essential situp)
             /\ (List.length (keypoints shortFrame) <= i)%nat)
  /\ @detectRep V8.host situp shortFrame new_ExerciseDetector
     = (false, mkDetector 0 false 0 "Position your body fully" 1 0).
Proof.
  assert (Hi : exists i, In i (essential situp)
                         /\ (List.length (keypoints shortFrame) <= i)%nat).
  { exists 11%nat. split; [simpl; auto | vm_compute; lia]. }
  split; [exact Hi|].
  exact (proj2 (@C10_out_of_range_landmarks V8.host situp shortFrame
                  new_ExerciseDetector) Hi).
Defined.

(** C10, as stated, fails: a push-up frame of nine keypoints has its wrist
    indices out of range, yet the call goes on with the 180-degree default;
    on a new detector it answers with the readiness message, and after ten
    down frames it counts a rep. *)
Lemma C10_short_pose_is_tracked :
  List.length (keypoints shortFrame) = 9%nat
  /\ getKeypoint shortFrame 9 = None
  /\ @detectRep V8.host pushup shortFrame new_ExerciseDetector
     = (false, mkDetector 0 false 180 "Ready - Lower your body" 1 0)
  /\ fst (getFormFeedback
            (snd (@detectRep V8.host pushup shortFrame new_ExerciseDetector)))
     <> positionMessage pushup
  /\ fst (@feed V8.host pushup (repeat downFrame 10 ++ [shortFrame])
            new_ExerciseDetector)
     = repeat false 10 ++ [true].
Proof.
  repeat split. vm_compute. discriminate.
Qed.

(** * Further properties of the detectors *)

Section Runs.
Context `{JSMath}.

Lemma advance_lastRep (e : ExerciseType) (f : Frame) (this : ExerciseDetector) :
  lastRepFrameCount (snd (advance e f this))
  = if fst (advance e f this) then frameCount this + 1
    else lastRepFrameCount this.
Proof.
  destruct f as [|m|m]; simpl; try reflexivity.
  destruct (isInDownPosition this && negb (m <? endThreshold e)%float);
    [|reflexivity].
  destruct ((startThreshold e <? m)%float && _); reflexivity.
Qed.

Lemma advance_paced (e : ExerciseType) (f : Frame) (this : ExerciseDetector) :
  paced this -> paced (snd (advance e f this)).
Proof.
  intros [Hle Hrate]. unfold paced.
  rewrite advance_lastRep, advance_reps, advance_frameCount.
  destruct (fst (advance e f this)) eqn:E.
  - apply advance_true_iff in E.
    destruct E as (m & _ & _ & _ & _ & Hw).
    rewrite framesBetweenReps_10 in Hw. lia.
  - lia.
Qed.

Lemma feed_paced (e : ExerciseType) (poses : list Pose) (this : ExerciseDetector) :
  paced this ->
  paced (snd (feed e poses this))
  /\ frameCount (snd (feed e poses this))
     = frameCount this + Z.of_nat (List.length poses).
Proof.
  revert this. induction poses as [|pose poses IH]; intros this Hp.
  - simpl. split; [assumption | lia].
  - rewrite feed_cons. cbn [snd]. rewrite detectRep_advance.
    destruct (IH _ (advance_paced e (frameOf e pose) this Hp)) as [IH1 IH2].
    split; [assumption|].
    rewrite IH2, advance_frameCount. cbn [List.length]. lia.
Qed.

End Runs.

(** X1. In a session started on a new detector every call, counted or
    not, advances the frame counter by one, and each counted rep uses up
    11 calls: after [n] calls the counter is [n] and [11 * getReps() <= n]. *)
Theorem X1_at_most_one_rep_per_11_calls `{JSMath} (e : ExerciseType)
  (poses : list Pose) :
  let this := snd (feed e poses new_ExerciseDetector) in
  frameCount this = Z.of_nat (List.length poses)
  /\ lastRepFrameCount this <= frameCount this
  /\ 11 * fst (getReps this) <= Z.of_nat (List.length poses).
Proof.
  cbv zeta.
  destruct (feed_paced e poses new_ExerciseDetector) as [[Hle Hrate] Hfc].
  { split; cbn; lia. }
  cbn in Hfc. unfold getReps, read. cbn [fst]. lia.
Qed.

(** X2. After a call that counts a rep, the next 10 calls return [false]
    whatever their poses, and the count stays put. *)
Theorem X2_ten_calls_after_a_rep `{JSMath} (e : ExerciseType) (pose : Pose)
  (this : ExerciseDetector) (poses : list Pose) :
  fst (detectRep e pose this) = true ->
  (List.length poses <= 10)%nat ->
  Forall (fun r => r = false)
    (fst (feed e poses (snd (detectRep e pose this))))
  /\ fst (getReps (snd (feed e poses (snd (detectRep e pose this)))))
     = fst (getReps this) + 1.
Proof.
  rewrite detectRep_advance. intros Hrep Hlen.
  pose proof (advance_lastRep e (frameOf e pose) this) as Hlr.
  pose proof (advance_reps e (frameOf e pose) this) as Hreps.
  pose proof (advance_frameCount e (frameOf e pose) this) as Hfc.
  rewrite Hrep in Hlr, Hreps.
  destruct (feed_debounced e poses (snd (advance e (frameOf e pose) this)))
    as [Hall Hsame].
  { rewrite Hlr, Hfc, framesBetweenReps_10. lia. }
  split; [assumption|]. unfold getReps, read. cbn [fst]. lia.
Qed.

Lemma X2_ten_calls_after_a_rep_witness :
  let this := snd (@feed V8.host situp (repeat downFrame 10)
                     new_ExerciseDetector) in
  fst (@detectRep V8.host situp upFrame this) = true
  /\ Forall (fun r => r = false)
       (fst (@feed V8.host situp (repeat downFrame 5 ++ repeat upFrame 5)
               (snd (@detectRep V8.host situp upFrame this)))).
Proof.
  cbv zeta. split; [reflexivity|].
  exact (proj1 (@X2_ten_calls_after_a_rep V8.host situp upFrame
           (snd (@feed V8.host situp (repeat downFrame 10)
                   new_ExerciseDetector))
           (repeat downFrame 5 ++ repeat upFrame 5) eq_refl
           ltac:(cbn; lia))).
Defined.

Section Phases.
Context `{JSMath}.

Lemma advance_flag (e : ExerciseType) (f : Frame) (this : ExerciseDetector) :
  isInDownPosition (snd (advance e f this))
  = match f with
    | Tracked m => (m <? endThreshold e)%float
    | _ => isInDownPosition this
    end.
Proof.
  destruct f as [|m|m]; simpl; try reflexivity.
  destruct (isInDownPosition this && negb (m <? endThreshold e)%float);
    [|reflexivity].
  destruct ((startThreshold e <? m)%float && _); reflexivity.
Qed.

Lemma detectRep_flag_gated (e : ExerciseType) (pose : Pose)
  (this : ExerciseDetector) :
  gated e pose = true ->
  isInDownPosition (snd (detectRep e pose this)) = isInDownPosition this.
Proof.
  unfold gated. rewrite detectRep_advance, advance_flag.
  destruct (frameOf e pose); [reflexivity | reflexivity | discriminate].
Qed.

Lemma detectRep_flag_tracked (e : ExerciseType) (pose : Pose)
  (this : ExerciseDetector) :
  gated e pose = false ->
  isInDownPosition (snd (detectRep e pose this)) = downTracked e pose.
Proof.
  unfold gated, downTracked. rewrite detectRep_advance, advance_flag.
  destruct (frameOf e pose); [discriminate | discriminate | reflexivity].
Qed.

(** The flag after a run is the verdict of the last frame that passed the
    gate, or the initial flag when none did. *)
Lemma feed_flag (e : ExerciseType) (poses : list Pose) (this : ExerciseDetector) :
  isInDownPosition (snd (feed e poses this)) = true ->
  isInDownPosition this = true /\ forallb (gated e) poses = true
  \/ exists before pose after,
       poses = before ++ pose :: after
       /\ downTracked e pose = true
       /\ forallb (gated e) after = true.
Proof.
  revert this. induction poses as [|pose poses IH]; intros this Hdown.
  - left. split; [exact Hdown | reflexivity].
  - rewrite feed_cons in Hdown. cbn [snd] in Hdown.
    destruct (IH _ Hdown) as [[Hflag Hall] | (before & p & after & -> & Hp & Ha)].
    + destruct (gated e pose) eqn:Hg.
      * left. rewrite (detectRep_flag_gated e pose this Hg) in Hflag.
        split; [assumption|]. cbn [forallb]. now rewrite Hg, Hall.
      * right. rewrite (detectRep_flag_tracked e pose this Hg) in Hflag.
        exists [], pose, poses. repeat split; assumption.
    + right. exists (pose :: before), p, after. repeat split; assumption.
Qed.

Lemma repeat_gated_or_flag (e : ExerciseType) (pose : Pose)
  (this : ExerciseDetector) :
  isInDownPosition (snd (detectRep e pose (snd (detectRep e pose this))))
  = isInDownPosition (snd (detectRep e pose this)).
Proof.
  rewrite !detectRep_advance, !advance_flag. now destruct (frameOf e pose).
Qed.

End Phases.

(** X3. In a session started on a new detector a rep is counted only after
    a down frame: if a call returns [true], some earlier frame of the
    session passed the confidence gate with its metric below
    [endPositionThreshold], and every frame between that one and the
    counted one failed the gate. *)
Theorem X3_rep_needs_a_down_frame `{JSMath} (e : ExerciseType)
  (poses : list Pose) (pose : Pose) :
  fst (detectRep e pose (snd (feed e poses new_ExerciseDetector))) = true ->
  exists before down after,
    poses = before ++ down :: after
    /\ downTracked e down = true
    /\ forallb (gated e) after = true
    /\ gated e pose = false /\ downTracked e pose = false.
Proof.
  rewrite detectRep_advance, advance_true_iff.
  intros (m & Hf & Hdown & He & _).
  destruct (feed_flag e poses new_ExerciseDetector Hdown)
    as [[Habs _] | (before & down & after & Hsplit & Hd & Ha)];
    [discriminate|].
  exists before, down, after.
  unfold gated, downTracked. rewrite Hf. repeat split; assumption.
Qed.

Lemma X3_rep_needs_a_down_frame_witness :
  fst (@detectRep V8.host squat upFrame
         (snd (@feed V8.host squat (repeat downFrame 9 ++ [dimUpFrame])
                 new_ExerciseDetector))) = true
  /\ exists before down after,
       repeat downFrame 9 ++ [dimUpFrame] = before ++ down :: after
       /\ @downTracked V8.host squat down = true
       /\ forallb (@gated V8.host squat) after = true
       /\ @gated V8.host squat upFrame = false
       /\ @downTracked V8.host squat upFrame = false.
Proof.
  split; [reflexivity|].
  exact (@X3_rep_needs_a_down_frame V8.host squat
           (repeat downFrame 9 ++ [dimUpFrame]) upFrame eq_refl).
Defined.

Section Stillness.
Context `{JSMath}.

Lemma advance_twice (e : ExerciseType) (f : Frame) (this : ExerciseDetector) :
  fst (advance e f (snd (advance e f this))) = false.
Proof.
  pose proof (advance_flag e f this) as Hflag.
  destruct f as [|m|m]; try reflexivity.
  destruct (advance e (Tracked m) this) as [r that]. cbn [snd] in *.
  simpl. rewrite Hflag. now destruct (m <? endThreshold e)%float.
Qed.

Lemma feed_repeat_after (e : ExerciseType) (pose : Pose) (n : nat)
  (this : ExerciseDetector) :
  fst (feed e (repeat pose n) (snd (detectRep e pose this))) = repeat false n.
Proof.
  revert this. induction n as [|n IH]; intros this; [reflexivity|].
  cbn [repeat]. rewrite feed_cons. cbn [fst]. rewrite IH. f_equal.
  rewrite !detectRep_advance. apply advance_twice.
Qed.

Lemma feed_reps_trues (e : ExerciseType) (poses : list Pose)
  (this : ExerciseDetector) :
  lastReps (snd (feed e poses this))
  = lastReps this + trues (fst (feed e poses this)).
Proof.
  revert this. induction poses as [|pose poses IH]; intros this.
  - cbn. unfold trues. cbn. lia.
  - rewrite feed_cons. cbn [fst snd]. rewrite IH, detectRep_advance.
    rewrite advance_reps. unfold trues. cbn [filter].
    destruct (fst (advance e (frameOf e pose) this)); cbn [List.length]; lia.
Qed.

Lemma trues_repeat_false (n : nat) : trues (repeat false n) = 0.
Proof. induction n as [|n IH]; [reflexivity | exact IH]. Qed.

End Stillness.

(** X4. Holding a pose counts nothing: when the same frame is fed again
    and again, only the first call can return [true]; every repetition
    returns [false], whatever the frame and the state before, so the run
    adds at most one rep. *)
Theorem X4_identical_frames_count_once `{JSMath} (e : ExerciseType)
  (pose : Pose) (n : nat) (this : ExerciseDetector) :
  fst (feed e (repeat pose (S n)) this)
  = fst (detectRep e pose this) :: repeat false n
  /\ fst (getReps (snd (feed e (repeat pose (S n)) this)))
     <= fst (getReps this) + 1.
Proof.
  assert (Hres : fst (feed e (repeat pose (S n)) this)
                 = fst (detectRep e pose this) :: repeat false n).
  { cbn [repeat]. rewrite feed_cons. cbn [fst]. now rewrite feed_repeat_after. }
  split; [exact Hres|].
  unfold getReps, read. cbn [fst]. rewrite feed_reps_trues, Hres.
  unfold trues. cbn [filter].
  pose proof (trues_repeat_false n) as Hz. unfold trues in Hz.
  destruct (fst (detectRep e pose this)); cbn [List.length]; lia.
Qed.

(** Membership in a list that is known element by element. *)
Ltac in_list := simpl; repeat first [ left; reflexivity | right ].

Section Messages.
Context `{JSMath}.

Lemma advance_message (e : ExerciseType) (f : Frame) (this : ExerciseDetector) :
  In (formQuality (snd (advance e f this))) (messages e)
  \/ (formQuality (snd (advance e f this)) = formQuality this
      /\ isInDownPosition this = true).
Proof.
  destruct f as [|m|m]; simpl.
  - left. destruct e; in_list.
  - left. destruct e; in_list.
  - destruct (isInDownPosition this); simpl.
    + destruct (m <? endThreshold e)%float eqn:He; simpl.
      * left. destruct e; simpl;
          repeat match goal with
                 | |- context [if ?b then _ else _] => destruct b
                 end; in_list.
      * destruct ((startThreshold e <? m)%float && _); simpl.
        -- left. destruct e; in_list.
        -- destruct (m <? startThreshold e)%float; [left | right; auto].
           destruct e; in_list.
    + left. destruct (m <? endThreshold e)%float; simpl.
      * destruct e; simpl;
          repeat match goal with
                 | |- context [if ?b then _ else _] => destruct b
                 end; in_list.
      * destruct e; in_list.
Qed.

Lemma feed_message (e : ExerciseType) (poses : list Pose) (this : ExerciseDetector) :
  In (formQuality (snd (feed e poses this))) (formQuality this :: messages e).
Proof.
  revert this. induction poses as [|pose poses IH]; intros this.
  - left. reflexivity.
  - rewrite feed_cons. cbn [snd].
    destruct (IH (snd (detectRep e pose this))) as [Heq | Hin];
      [|right; exact Hin].
    rewrite <- Heq. rewrite detectRep_advance.
    destruct (advance_message e (frameOf e pose) this) as [Hin | [Hsame _]].
    + right. exact Hin.
    + left. symmetry. exact Hsame.
Qed.

Lemma feed_message_fresh (e : ExerciseType) (poses : list Pose)
  (this : ExerciseDetector) :
  isInDownPosition this = false -> poses <> [] ->
  In (formQuality (snd (feed e poses this))) (messages e).
Proof.
  intros Hup Hne. destruct poses as [|pose poses]; [contradiction|].
  rewrite feed_cons. cbn [snd].
  assert (Hfirst : In (formQuality (snd (detectRep e pose this))) (messages e)).
  { rewrite detectRep_advance.
    destruct (advance_message e (frameOf e pose) this) as [Hin | [_ Habs]];
      [exact Hin | congruence]. }
  destruct (feed_message e poses (snd (detectRep e pose this))) as [Heq | Hin].
  - now rewrite <- Heq.
  - exact Hin.
Qed.

Lemma messages_nonempty (e : ExerciseType) (msg : string) :
  In msg (messages e) -> msg <> "".
Proof.
  intros Hin ->. destruct e; simpl in Hin;
    repeat destruct Hin as [Hin | Hin]; try discriminate; contradiction.
Qed.

End Messages.

(** X5. The feedback of a session started on a new detector is never
    empty: it is "Good" before the first call and one of the exercise's
    own messages after any call.  The only calls that leave the feedback
    of the previous frame in place are uncounted down-to-up transitions. *)
Theorem X5_feedback_is_always_a_message `{JSMath} (e : ExerciseType)
  (poses : list Pose) :
  (poses <> [] ->
   In (fst (getFormFeedback (snd (feed e poses new_ExerciseDetector))))
      (messages e))
  /\ fst (getFormFeedback (snd (feed e poses new_ExerciseDetector))) <> ""
  /\ (forall pose this,
        In (fst (getFormFeedback (snd (detectRep e pose this)))) (messages e)
        \/ (fst (getFormFeedback (snd (detectRep e pose this)))
            = fst (getFormFeedback this)
            /\ isInDownPosition this = true
            /\ isInDownPosition (snd (detectRep e pose this)) = false
            /\ fst (detectRep e pose this) = false)).
Proof.
  split; [|split].
  - intros Hne. now apply feed_message_fresh.
  - destruct (feed_message e poses new_ExerciseDetector) as [Heq | Hin].
    + unfold getFormFeedback, read. cbn [fst]. rewrite <- Heq. discriminate.
    + now apply (messages_nonempty e).
  - intros pose this. rewrite detectRep_advance.
    unfold getFormFeedback, read. cbn [fst].
    destruct (frameOf e pose) as [|m|m].
    + left. destruct e; in_list.
    + left. destruct e; in_list.
    + destruct (advance_message e (Tracked m) this) as [Hin | [Hsame Hdown]];
        [left; exact Hin|].
      simpl in *. rewrite Hdown in *. simpl in *.
      destruct (m <? endThreshold e)%float eqn:He; simpl in *.
      * left. destruct e; simpl;
          repeat match goal with
                 | |- context [if ?b then _ else _] => destruct b
                 end; in_list.
      * destruct ((startThreshold e <? m)%float && _); simpl in *.
        -- left. destruct e; in_list.
        -- right. auto.
Qed.

Lemma X5_feedback_is_always_a_message_witness :
  repeat downFrame 3 ++ [edgeFrame] <> []
  /\ In (fst (getFormFeedback
               (snd (@feed V8.host situp (repeat downFrame 3 ++ [edgeFrame])
                       new_ExerciseDetector))))
        (messages situp).
Proof.
  assert (Hne : repeat downFrame 3 ++ [edgeFrame] <> []) by discriminate.
  split; [exact Hne|].
  exact (proj1 (@X5_feedback_is_always_a_message V8.host situp
                  (repeat downFrame 3 ++ [edgeFrame])) Hne).
Defined.

Section Locality.
Context `{JSMath}.

Lemma getKeypoint_ext (pose pose' : Pose) (i : nat) :
  nth_error (keypoints pose) i = nth_error (keypoints pose') i ->
  getKeypoint pose i = getKeypoint pose' i.
Proof. unfold getKeypoint. now intros ->. Qed.

Lemma frameOf_ext (e : ExerciseType) (pose pose' : Pose) :
  (forall i, In i (involved e) ->
             nth_error (keypoints pose) i = nth_error (keypoints pose') i) ->
  frameOf e pose = frameOf e pose'.
Proof.
  intros Hsame.
  assert (Hk : forall i, In i (involved e) ->
                         getKeypoint pose i = getKeypoint pose' i).
  { intros i Hi. apply getKeypoint_ext. now apply Hsame. }
  unfold frameOf, essentialsVisible, confidence, visible, metric, withSide.
  destruct e; cbn [essential involved map forallb];
    repeat match goal with
           | |- context [getKeypoint pose ?i] =>
             rewrite (Hk i) by in_list
           end; reflexivity.
Qed.

End Locality.

(** X6. A detector reads nothing but its own landmarks: two poses that
    agree on the exercise's involved landmark indices (six for push-up and
    squat, five for sit-up) are indistinguishable, whatever their other
    keypoints, their lengths and their overall pose scores. *)
Theorem X6_only_involved_landmarks_are_read `{JSMath} (e : ExerciseType)
  (pose pose' : Pose) (this : ExerciseDetector) :
  (forall i, In i (involved e) ->
             nth_error (keypoints pose) i = nth_error (keypoints pose') i) ->
  detectRep e pose this = detectRep e pose' this.
Proof.
  intros Hsame. now rewrite !detectRep_advance, (frameOf_ext e pose pose' Hsame).
Qed.

Lemma X6_only_involved_landmarks_are_read_witness :
  (forall i, In i (involved pushup) ->
             nth_error (keypoints arms20) i
             = nth_error (keypoints (body 34 (-94) 60 80)) i)
  /\ @detectRep V8.host pushup arms20 new_ExerciseDetector
     = @detectRep V8.host pushup (body 34 (-94) 60 80) new_ExerciseDetector.
Proof.
  assert (Hsame : forall i, In i (involved pushup) ->
                            nth_error (keypoints arms20) i
                            = nth_error (keypoints (body 34 (-94) 60 80)) i).
  { intros i Hi. simpl in Hi.
    repeat destruct Hi as [<- | Hi]; try reflexivity; contradiction. }
  split; [exact Hsame|].
  exact (@X6_only_involved_landmarks_are_read V8.host pushup arms20
           (body 34 (-94) 60 80) new_ExerciseDetector Hsame).
Defined.

Section Occlusion.
Context `{JSMath}.

Lemma metric_occluded (e : ExerciseType) (pose : Pose) :
  e <> situp ->
  (forall s w, In (s, w) (limbEnds e) ->
               visible pose s = false \/ visible pose w = false) ->
  metric e pose = 180%float.
Proof.
  intros He Hocc.
  assert (Hside : forall s j w acc, In (s, w) (limbEnds e) ->
                    withSide pose s j w acc = acc).
  { intros s j w acc Hin. unfold withSide.
    destruct (Hocc s w Hin) as [Hv | Hv]; unfold visible in Hv.
    - destruct (getKeypoint pose s); [discriminate | reflexivity].
    - destruct (getKeypoint pose s); [|reflexivity].
      destruct (getKeypoint pose j); [|reflexivity].
      destruct (getKeypoint pose w); [discriminate | reflexivity]. }
  destruct e; [| |contradiction]; cbn [metric];
    rewrite !Hside by in_list; reflexivity.
Qed.

End Occlusion.

(** X7. Hiding the limb ends stands in for standing up.  For the push-up
    and the squat, a frame that passes the gate while on each side the
    shoulder or the wrist (the hip or the ankle) is not visible has the
    default metric 180; fed to a detector in the down phase more than 10
    frames after its last rep, it is counted as a rep. *)
Theorem X7_occluded_limbs_count_as_up `{JSMath} (e : ExerciseType)
  (pose : Pose) (this : ExerciseDetector) :
  e <> situp ->
  essentialsVisible e pose = true ->
  (confidence e pose <? minFormQuality e)%float = false ->
  (forall s w, In (s, w) (limbEnds e) ->
               visible pose s = false \/ visible pose w = false) ->
  metric e pose = 180%float
  /\ isInDownPosition (snd (detectRep e pose this)) = false
  /\ (isInDownPosition this = true ->
      framesBetweenReps e < frameCount this + 1 - lastRepFrameCount this ->
      fst (detectRep e pose this) = true).
Proof.
  intros He Hv Hc Hocc.
  pose proof (metric_occluded e pose He Hocc) as Hm.
  rewrite detectRep_advance, (frameOf_tracked e pose Hv Hc), Hm.
  split; [reflexivity|]. split.
  - rewrite advance_flag. now destruct e.
  - intros Hdown Hw. rewrite advance_count; try assumption; now destruct e.
Qed.

Lemma X7_occluded_limbs_count_as_up_witness :
  let this := snd (@feed V8.host pushup (repeat downFrame 10)
                     new_ExerciseDetector) in
  (pushup <> situp
   /\ essentialsVisible pushup upFrame = true
   /\ (confidence pushup upFrame <? minFormQuality pushup)%float = false
   /\ visible upFrame 9 = false /\ visible upFrame 10 = false
   /\ isInDownPosition this = true)
  /\ fst (@detectRep V8.host pushup upFrame this) = true.
Proof.
  cbv zeta. split; [repeat split; discriminate|].
  refine (proj2 (proj2 (@X7_occluded_limbs_count_as_up V8.host pushup upFrame
           (snd (@feed V8.host pushup (repeat downFrame 10)
                   new_ExerciseDetector))
           ltac:(discriminate) eq_refl eq_refl _)) eq_refl eq_refl).
  intros s w Hin. simpl in Hin.
  destruct Hin as [[= <- <-] | [[= <- <-] | []]]; right; reflexivity.
Defined.

(** ** Bounds and symmetries of the geometry *)

Section FloatAlgebra.

Lemma leb_refl (u : float) : is_nan u = false -> (u <=? u)%float = true.
Proof.
  intro Hn. apply ltb_false_leb; try assumption.
  destruct (u <? u)%float eqn:E; [|reflexivity].
  now rewrite (ltb_asym _ _ E) in E.
Qed.

Lemma mul_comm (u v : float) : (u * v)%float = (v * u)%float.
Proof.
  apply Prim2SF_inj. rewrite !mul_spec. unfold SF64mul, SFmul.
  destruct (Prim2SF u) as [su|su| |su mu eu], (Prim2SF v) as [sv|sv| |sv mv ev];
    try reflexivity; try (now rewrite xorb_comm).
  now rewrite xorb_comm, Pos.mul_comm, Z.add_comm.
Qed.

Lemma add_comm (u v : float) : (u + v)%float = (v + u)%float.
Proof.
  apply Prim2SF_inj. rewrite !add_spec. unfold SF64add, SFadd.
  destruct (Prim2SF u) as [su|su| |su mu eu], (Prim2SF v) as [sv|sv| |sv mv ev];
    try reflexivity; try (destruct su, sv; reflexivity).
  now rewrite Z.min_comm, Z.add_comm.
Qed.

Lemma binary_round_aux_opp (s : bool) (m e : Z) (l : location) :
  binary_round_aux prec emax (negb s) m e l
  = SFopp (binary_round_aux prec emax s m e l).
Proof.
  unfold binary_round_aux.
  destruct (shr_fexp prec emax m e l) as [mrs' e'].
  destruct (shr_fexp prec emax _ e' loc_Exact) as [mrs'' e''].
  destruct (shr_m mrs''); try reflexivity.
  destruct (e'' <=? emax - prec)%Z; reflexivity.
Qed.

Lemma binary_normalize_opp (m e : Z) :
  SFmul prec emax (binary_normalize prec emax (- m) e false)
                  (binary_normalize prec emax (- m) e false)
  = SFmul prec emax (binary_normalize prec emax m e false)
                    (binary_normalize prec emax m e false).
Proof.
  assert (Hsq : forall r, SFmul prec emax (SFopp r) (SFopp r)
                          = SFmul prec emax r r).
  { intros [s|s| |s mm ee]; simpl; try reflexivity; now destruct s. }
  destruct m as [|q|q]; cbn [Z.opp binary_normalize]; [reflexivity| |].
  - unfold binary_round.
    destruct (shl_align q e _) as [mz ez].
    change true with (negb false).
    now rewrite binary_round_aux_opp, Hsq.
  - unfold binary_round.
    destruct (shl_align q e _) as [mz ez].
    change true with (negb false).
    now rewrite binary_round_aux_opp, Hsq.
Qed.

(** [(u - v) ** 2] and [(v - u) ** 2] are the same binary64 value. *)
Lemma sq_sub_swap (u v : float) : sq (u - v) = sq (v - u).
Proof.
  unfold sq. apply Prim2SF_inj. rewrite !mul_spec, !sub_spec.
  unfold SF64mul, SF64sub, SFsub.
  destruct (Prim2SF u) as [su|su| |su mu eu], (Prim2SF v) as [sv|sv| |sv mv ev];
    try reflexivity; try (destruct su, sv; reflexivity).
  rewrite Z.min_comm.
  set (A := cond_Zopp su _). set (B := cond_Zopp sv _).
  replace (B - A) with (- (A - B)) by lia.
  symmetry. apply binary_normalize_opp.
Qed.

Lemma binary_round_aux_nonneg (m e : Z) (l : location) :
  SFnonneg (binary_round_aux prec emax false m e l).
Proof.
  unfold binary_round_aux.
  destruct (shr_fexp prec emax m e l) as [mrs' e'].
  destruct (shr_fexp prec emax _ e' loc_Exact) as [mrs'' e''].
  destruct (shr_m mrs''); simpl; auto.
  destruct (e'' <=? _)%Z; exact eq_refl.
Qed.

Lemma SFnonneg_leb (u : float) :
  SFnonneg (Prim2SF u) -> is_nan u = true \/ (0 <=? u)%float = true.
Proof.
  unfold is_nan. rewrite leb_spec, eqb_spec. unfold SFleb, SFeqb.
  change (Prim2SF 0) with (S754_zero false).
  destruct (Prim2SF u) as [s|s| |s m e]; simpl; auto.
  - intros ->. auto.
  - intros ->. auto.
Qed.

Lemma sqrt_nonneg (u : float) : SFnonneg (Prim2SF (sqrt u)).
Proof.
  rewrite sqrt_spec. unfold SF64sqrt, SFsqrt.
  destruct (Prim2SF u) as [s|s| |s m e]; simpl; auto.
  - now destruct s.
  - destruct s; simpl; auto.
    destruct (SFsqrt_core_binary prec emax (Z.pos m) e) as [[mz ez] lz].
    apply binary_round_aux_nonneg.
Qed.

Lemma mul_nonneg (u v : float) :
  SFnonneg (Prim2SF u) -> SFnonneg (Prim2SF v) -> SFnonneg (Prim2SF (u * v)).
Proof.
  rewrite mul_spec. unfold SF64mul, SFmul.
  destruct (Prim2SF u) as [su|su| |su mu eu], (Prim2SF v) as [sv|sv| |sv mv ev];
    simpl; auto; try (intros -> ->; reflexivity).
  intros -> ->. apply binary_round_aux_nonneg.
Qed.

Lemma Math_min_cases (u v : float) :
  Math_min u v = nan \/ Math_min u v = u \/ Math_min u v = v.
Proof.
  unfold Math_min.
  destruct (is_nan u || is_nan v); auto.
  destruct (u <? v)%float; auto.
  destruct (v <? u)%float; auto.
  destruct (is_neg_zero v); auto.
Qed.

Lemma Math_min_le (u v : float) :
  is_nan (Math_min u v) = true
  \/ ((Math_min u v <=? u)%float = true /\ (Math_min u v <=? v)%float = true).
Proof.
  unfold Math_min.
  destruct (is_nan u) eqn:Hu; [left; reflexivity|].
  destruct (is_nan v) eqn:Hv; [left; reflexivity|]. cbn [orb]. right.
  destruct (u <? v)%float eqn:Huv.
  { split; [now apply leb_refl | now apply ltb_leb]. }
  destruct (v <? u)%float eqn:Hvu.
  { split; [now apply ltb_leb | now apply leb_refl]. }
  pose proof (ltb_false_leb u v Hu Hv Huv) as Hle1.
  pose proof (ltb_false_leb v u Hv Hu Hvu) as Hle2.
  destruct (is_neg_zero v); split; try assumption; now apply leb_refl.
Qed.

Lemma Math_min_nan_l (u v : float) :
  is_nan u = true -> is_nan (Math_min u v) = true.
Proof. intro Hu. unfold Math_min. now rewrite Hu. Qed.

End FloatAlgebra.

(** X8. The geometry helpers do not depend on the order of their points:
    [calculateDistance(p, q)] and [calculateDistance(q, p)] are the same
    binary64 value, and so are [calculateAngle(a, b, c)] and
    [calculateAngle(c, b, a)], for all inputs (NaN and infinities
    included) and whatever [Math.acos] is. *)
Theorem X8_distance_and_angle_are_symmetric `{JSMath} (a b c : Keypoint) :
  calculateDistance a b = calculateDistance b a
  /\ calculateAngle a b c = calculateAngle c b a.
Proof.
  split.
  - unfold calculateDistance.
    now rewrite (sq_sub_swap (x a) (x b)), (sq_sub_swap (y a) (y b)).
  - unfold calculateAngle. cbv zeta.
    rewrite (mul_comm (x a - x b) (x c - x b)).
    rewrite (mul_comm (y a - y b) (y c - y b)).
    rewrite (mul_comm (sqrt (sq (x a - x b) + sq (y a - y b)))
                      (sqrt (sq (x c - x b) + sq (y c - y b)))).
    now rewrite orb_comm.
Qed.

Section Bounds.
Context `{JSMath}.

Lemma capped_180 : capped 180.
Proof. right. reflexivity. Qed.

Lemma withSide_capped (pose : Pose) (i j k : nat) (acc : float) :
  capped acc -> capped (withSide pose i j k acc).
Proof.
  intros Hacc. unfold withSide.
  destruct (getKeypoint pose i) as [a|]; [|exact Hacc].
  destruct (getKeypoint pose j) as [b|]; [|exact Hacc].
  destruct (getKeypoint pose k) as [c|]; [|exact Hacc].
  destruct Hacc as [Hnan | Hle].
  - left. now apply Math_min_nan_l.
  - destruct (Math_min_le acc (calculateAngle a b c)) as [Hn | [Hl _]].
    + left. exact Hn.
    + right. exact (leb_trans _ _ _ Hl Hle).
Qed.

Lemma metric_capped (e : ExerciseType) (pose : Pose) : capped (metric e pose).
Proof.
  destruct e; cbn [metric].
  - apply withSide_capped, withSide_capped, capped_180.
  - apply withSide_capped, withSide_capped, capped_180.
  - destruct (getKeypoint pose 0) as [nose|]; [|right; reflexivity].
    destruct (getKeypoint pose 11) as [lh|]; [|right; reflexivity].
    destruct (getKeypoint pose 12) as [rh|]; [|right; reflexivity].
    cbv zeta.
    destruct (Math_min_le (calculateDistance nose
                {| x := (x lh + x rh) / 2; y := (y lh + y rh) / 2;
                   score := 0.5 |} * 50)%float 180%float) as [Hn | [_ Hr]];
      [left | right]; assumption.
Qed.

Lemma calculateDistance_nonneg (p q : Keypoint) :
  SFnonneg (Prim2SF (calculateDistance p q)).
Proof. unfold calculateDistance. apply sqrt_nonneg. Qed.

Lemma situp_metric_nonneg (pose : Pose) :
  is_nan (metric situp pose) = true \/ (0 <=? metric situp pose)%float = true.
Proof.
  cbn [metric].
  destruct (getKeypoint pose 0) as [nose|]; [|right; reflexivity].
  destruct (getKeypoint pose 11) as [lh|]; [|right; reflexivity].
  destruct (getKeypoint pose 12) as [rh|]; [|right; reflexivity].
  cbv zeta.
  set (d := calculateDistance nose _).
  assert (Hd : SFnonneg (Prim2SF (d * 50)%float)).
  { apply mul_nonneg; [apply calculateDistance_nonneg | exact eq_refl]. }
  destruct (Math_min_cases (d * 50)%float 180%float) as [-> | [-> | ->]].
  - left. reflexivity.
  - now apply SFnonneg_leb.
  - right. reflexivity.
Qed.

Lemma advance_lastAngle (e : ExerciseType) (f : Frame) (this : ExerciseDetector) :
  lastAngle (snd (advance e f this))
  = match f with
    | Untracked => lastAngle this
    | LowConfidence m | Tracked m => m
    end.
Proof.
  destruct f as [|m|m]; simpl; try reflexivity.
  destruct (isInDownPosition this && negb (m <? endThreshold e)%float);
    [|reflexivity].
  destruct ((startThreshold e <? m)%float && _); reflexivity.
Qed.

Lemma feed_lastAngle_capped (e : ExerciseType) (poses : list Pose)
  (this : ExerciseDetector) :
  capped (lastAngle this) -> capped (lastAngle (snd (feed e poses this))).
Proof.
  revert this. induction poses as [|pose poses IH]; intros this Hc;
    [exact Hc|].
  rewrite feed_cons. cbn [snd]. apply IH.
  rewrite detectRep_advance, advance_lastAngle. unfold frameOf.
  destruct (essentialsVisible e pose); [|exact Hc].
  destruct (confidence e pose <? minFormQuality e)%float; apply metric_capped.
Qed.

End Bounds.

(** X9. Whatever [Math.acos] returns, the tracked metric of a frame is NaN
    or at most 180 (each joint angle enters through [Math.min] with 180,
    and the sit-up proxy is capped at 180), so the [lastAngle] of a session
    started on a new detector is always NaN or at most 180.  The sit-up
    proxy, a scaled distance, is in addition NaN or at least 0, and a
    distance is never negative. *)
Theorem X9_metric_is_capped_at_180 `{JSMath} (e : ExerciseType)
  (pose : Pose) (poses : list Pose) (p q : Keypoint) :
  (is_nan (metric e pose) = true \/ (metric e pose <=? 180)%float = true)
  /\ (is_nan (lastAngle (snd (feed e poses new_ExerciseDetector))) = true
      \/ (lastAngle (snd (feed e poses new_ExerciseDetector)) <=? 180)%float
         = true)
  /\ (is_nan (metric situp pose) = true
      \/ (0 <=? metric situp pose)%float = true)
  /\ (is_nan (calculateDistance p q) = true
      \/ (0 <=? calculateDistance p q)%float = true).
Proof.
  split; [apply metric_capped|]. split.
  - apply feed_lastAngle_capped. right. reflexivity.
  - split; [apply situp_metric_nonneg|].
    apply SFnonneg_leb, calculateDistance_nonneg.
Qed.

(** * The training camera *)

Module CameraFacts.
Import LiveTrainingCamera.

Section Camera.
Context `{JSMath}.
Variable props : Props.

Lemma detectFrame_posed (pose : Pose) (st : State) (e : ExerciseType)
  (det : ExerciseDetector) :
  detectorRef st = Some (e, det) ->
  detectFrame props (Some pose) st
  = let r := fst (detectRep e pose det) in
    let det' := snd (detectRep e pose det) in
    let fire := fires props st r (lastReps det') in
    let fb := if String.eqb (formQuality det') "" then "Tracking..."
              else formQuality det' in
    ((if r then onRepsUpdate (lastReps det')
                :: (if fire then [setTimeout_onComplete] else [])
      else []) ++ [onFormUpdate fb],
     mkState (Some (e, det')) (if r then lastReps det' else reps st) fb
       (completionTriggeredRef st || fire) (isComplete st || fire)).
Proof.
  intros Href. unfold detectFrame, fires. rewrite Href.
  destruct (detectRep e pose det) as [r det']. cbn [fst snd].
  unfold getReps, getFormFeedback, read. cbn [fst].
  destruct r; cbn [andb reps completionTriggeredRef isComplete detectorRef
                   feedback].
  - destruct (requiredReps props) as [q|]; cbn [andb].
    + destruct (q <=? lastReps det')%Z, (completionTriggeredRef st),
        (onComplete props), (isComplete st); reflexivity.
    + now rewrite !orb_false_r.
  - now rewrite !orb_false_r.
Qed.

Lemma detectFrame_skipped (st : State) : detectFrame props None st = ([], st).
Proof. unfold detectFrame. now destruct (detectorRef st) as [[e det]|]. Qed.

Lemma run_cons (frame : option Pose) (frames : list (option Pose)) (st : State) :
  run props (frame :: frames) st
  = (fst (detectFrame props frame st)
       ++ fst (run props frames (snd (detectFrame props frame st))),
     snd (run props frames (snd (detectFrame props frame st)))).
Proof.
  cbn [run]. destruct (detectFrame props frame st) as [calls st1].
  cbn [fst snd]. now destruct (run props frames st1).
Qed.

(** The camera hands the detector exactly the frames that have a pose, in
    order, and shows the detector's count. *)
Lemma run_detector (frames : list (option Pose)) (st : State)
  (e : ExerciseType) (det : ExerciseDetector) :
  detectorRef st = Some (e, det) -> reps st = lastReps det ->
  detectorRef (snd (run props frames st))
  = Some (e, snd (feed e (posed frames) det))
  /\ reps (snd (run props frames st))
     = lastReps (snd (feed e (posed frames) det)).
Proof.
  revert st det. induction frames as [|[pose|] frames IH]; intros st det Href Hreps.
  - split; assumption.
  - rewrite run_cons, (detectFrame_posed pose st e det Href). cbn [fst snd].
    cbn [posed flat_map app]. change (flat_map _ frames) with (posed frames).
    rewrite feed_cons. cbn [snd]. apply IH; [reflexivity|]. cbn [reps].
    pose proof (advance_reps e (frameOf e pose) det) as Hadv.
    rewrite <- detectRep_advance in Hadv.
    destruct (fst (detectRep e pose det)); [reflexivity | lia].
  - rewrite run_cons, detectFrame_skipped. cbn [fst snd].
    cbn [posed flat_map app]. change (flat_map _ frames) with (posed frames).
    now apply IH.
Qed.

Lemma run_unposed (frames : list (option Pose)) (st : State) :
  posed frames = [] -> run props frames st = ([], st).
Proof.
  revert st. induction frames as [|[pose|] frames IH]; intros st Hp.
  - reflexivity.
  - discriminate.
  - rewrite run_cons, detectFrame_skipped. cbn [fst snd].
    now rewrite (IH st Hp).
Qed.

Lemma reported_app (c1 c2 : list Call) :
  reported (c1 ++ c2) = reported c1 ++ reported c2.
Proof. unfold reported. apply flat_map_app. Qed.

Lemma completions_app (c1 c2 : list Call) :
  completions (c1 ++ c2) = (completions c1 + completions c2)%nat.
Proof. unfold completions. now rewrite filter_app, length_app. Qed.

Lemma run_reported (frames : list (option Pose)) (st : State)
  (e : ExerciseType) (det : ExerciseDetector) :
  detectorRef st = Some (e, det) ->
  reported (fst (run props frames st))
  = countUp (lastReps det)
      (Z.to_nat (lastReps (snd (feed e (posed frames) det)) - lastReps det)).
Proof.
  revert st det. induction frames as [|[pose|] frames IH]; intros st det Href.
  - cbn. now rewrite Z.sub_diag.
  - rewrite run_cons, (detectFrame_posed pose st e det Href). cbn [fst snd].
    cbn [posed flat_map app]. change (flat_map _ frames) with (posed frames).
    rewrite feed_cons. cbn [snd]. rewrite reported_app.
    erewrite IH by reflexivity.
    pose proof (advance_reps e (frameOf e pose) det) as Hadv.
    rewrite <- detectRep_advance in Hadv.
    pose proof (feed_reps_le e (posed frames) (snd (detectRep e pose det)))
      as Hle.
    destruct (fst (detectRep e pose det)).
    + assert (Hrep : forall (n : Z) (b : bool),
                reported (onRepsUpdate n
                            :: (if b then [setTimeout_onComplete] else []))
                = [n]) by (intros n []; reflexivity).
      rewrite reported_app, Hrep.
      change (reported [onFormUpdate _]) with (@nil Z). cbn [app].
      replace (Z.to_nat (lastReps (snd (feed e (posed frames)
                 (snd (detectRep e pose det)))) - lastReps det))
        with (S (Z.to_nat (lastReps (snd (feed e (posed frames)
                 (snd (detectRep e pose det))))
                 - lastReps (snd (detectRep e pose det))))) by lia.
      cbn [countUp]. now rewrite Hadv.
    + change (reported ([] ++ [onFormUpdate _])) with (@nil Z). cbn [app].
      rewrite Z.add_0_r in Hadv. now rewrite Hadv.
  - rewrite run_cons, detectFrame_skipped. cbn [fst snd app].
    cbn [posed flat_map app]. change (flat_map _ frames) with (posed frames).
    now apply IH.
Qed.

Lemma run_completion (frames : list (option Pose)) (st : State)
  (e : ExerciseType) (det : ExerciseDetector) (q : Z) :
  detectorRef st = Some (e, det) ->
  requiredReps props = Some q -> onComplete props = true ->
  let st' := snd (run props frames st) in
  let det' := snd (feed e (posed frames) det) in
  (completionTriggeredRef st' = true <->
   completionTriggeredRef st = true
   \/ (lastReps det < lastReps det' /\ q <= lastReps det'))
  /\ completions (fst (run props frames st))
     = (if completionTriggeredRef st then 0
        else if completionTriggeredRef st' then 1 else 0)%nat
  /\ (isComplete st = completionTriggeredRef st ->
      isComplete st' = completionTriggeredRef st').
Proof.
  intros Href Hq Hon. cbv zeta.
  revert st det Href. induction frames as [|[pose|] frames IH]; intros st det Href.
  - cbn. split; [|split].
    + split; [auto | intros [Ht | [Hlt _]]; [exact Ht | lia]].
    + now destruct (completionTriggeredRef st).
    + auto.
  - rewrite run_cons, (detectFrame_posed pose st e det Href). cbn [fst snd].
    cbn [posed flat_map app]. change (flat_map _ frames) with (posed frames).
    rewrite feed_cons. cbn [snd].
    set (det1 := snd (detectRep e pose det)).
    set (r := fst (detectRep e pose det)).
    set (fire := fires props st r (lastReps det1)).
    set (st1 := mkState _ _ _ _ _).
    destruct (IH st1 det1 eq_refl) as (IHt & IHc & IHi).
    pose proof (advance_reps e (frameOf e pose) det) as Hadv.
    rewrite <- detectRep_advance in Hadv. fold det1 r in Hadv.
    pose proof (feed_reps_le e (posed frames) det1) as Hle.
    assert (Hfire : fire = r && (q <=? lastReps det1)%Z
                           && negb (completionTriggeredRef st)).
    { unfold fire, fires. rewrite Hq, Hon. now rewrite andb_true_r. }
    assert (Hst1 : completionTriggeredRef st1
                   = completionTriggeredRef st || fire) by reflexivity.
    assert (Hic1 : isComplete st1 = isComplete st || fire) by reflexivity.
    rewrite Hst1 in IHt, IHc, IHi. rewrite Hic1 in IHi.
    split; [|split].
    + rewrite IHt. destruct (completionTriggeredRef st) eqn:Ht; cbn [orb].
      * split; auto.
      * rewrite Hfire. cbn [negb]. rewrite andb_true_r.
        destruct r; cbn [andb].
        -- destruct (Z.leb_spec q (lastReps det1)); split; intro Hyp.
           ++ right. lia.
           ++ left. reflexivity.
           ++ destruct Hyp as [Habs | [Hlt Hqq]]; [discriminate|]. right. lia.
           ++ destruct Hyp as [Habs | [Hlt Hqq]]; [discriminate|]. right. lia.
        -- split; intro Hyp.
           ++ destruct Hyp as [Habs | [Hlt Hqq]]; [discriminate|]. right. lia.
           ++ destruct Hyp as [Habs | [Hlt Hqq]]; [discriminate|]. right. lia.
    + rewrite completions_app, IHc.
      assert (Hc1 : completions
                ((if r then onRepsUpdate (lastReps det1)
                            :: (if fire then [setTimeout_onComplete] else [])
                  else []) ++ [onFormUpdate (feedback st1)])
              = (if fire then 1 else 0)%nat).
      { destruct r, fire; try reflexivity.
        rewrite Hfire in *. discriminate. }
      assert (Hfb : feedback st1
                    = if String.eqb (formQuality det1) "" then "Tracking..."
                      else formQuality det1) by reflexivity.
      rewrite <- Hfb, Hc1.
      destruct (completionTriggeredRef st) eqn:Ht; cbn [orb].
      * rewrite Hfire. now rewrite andb_false_r.
      * destruct fire eqn:Hf; cbn [orb].
        -- assert (Ht' : completionTriggeredRef
                           (snd (run props frames st1)) = true)
             by (apply IHt; left; reflexivity).
           now rewrite Ht'.
        -- reflexivity.
    + intros Heq. apply IHi. now rewrite Heq.
  - rewrite run_cons, detectFrame_skipped. cbn [fst snd app].
    cbn [posed flat_map app]. change (flat_map _ frames) with (posed frames).
    now apply IH.
Qed.

Lemma run_never_completes (frames : list (option Pose)) (st : State) :
  requiredReps props = None \/ onComplete props = false ->
  completions (fst (run props frames st)) = 0%nat
  /\ completionTriggeredRef (snd (run props frames st))
     = completionTriggeredRef st
  /\ isComplete (snd (run props frames st)) = isComplete st.
Proof.
  intros Hoff.
  assert (Hfire : forall st r n, fires props st r n = false).
  { intros st0 r n. unfold fires.
    destruct Hoff as [-> | ->];
      [now rewrite andb_false_r | now rewrite andb_false_r]. }
  revert st. induction frames as [|[pose|] frames IH]; intros st.
  - repeat split.
  - rewrite run_cons. destruct (detectorRef st) as [[e det]|] eqn:Href.
    + rewrite (detectFrame_posed pose st e det Href). cbn [fst snd].
      rewrite Hfire, !orb_false_r.
      match goal with |- context [run props frames ?s] =>
        destruct (IH s) as (IH1 & IH2 & IH3) end.
      cbn [completionTriggeredRef isComplete] in IH2, IH3.
      rewrite completions_app, IH1, IH2, IH3.
      repeat split.
      now destruct (fst (detectRep e pose det)).
    + unfold detectFrame. rewrite Href. cbn [fst snd app]. apply IH.
  - rewrite run_cons, detectFrame_skipped. cbn [fst snd app]. apply IH.
Qed.

Lemma step_message (e : ExerciseType) (pose : Pose) (det : ExerciseDetector) :
  In (formQuality det) (messages e) \/ isInDownPosition det = false ->
  In (formQuality (snd (detectRep e pose det))) (messages e).
Proof.
  intros Hok. rewrite detectRep_advance.
  destruct (advance_message e (frameOf e pose) det) as [Hin | [Hsame Hdown]];
    [exact Hin|].
  rewrite Hsame. destruct Hok as [Hin | Hup]; [exact Hin | congruence].
Qed.

Lemma run_feedback (frames : list (option Pose)) (st : State)
  (e : ExerciseType) (det : ExerciseDetector) :
  detectorRef st = Some (e, det) ->
  In (formQuality det) (messages e) \/ isInDownPosition det = false ->
  Forall (carriesMessage e) (fst (run props frames st))
  /\ (posed frames <> [] ->
      feedback (snd (run props frames st))
      = formQuality (snd (feed e (posed frames) det))
      /\ In (feedback (snd (run props frames st))) (messages e)).
Proof.
  revert st det. induction frames as [|[pose|] frames IH]; intros st det Href Hok.
  - split; [constructor | intros Habs; now contradiction Habs].
  - rewrite run_cons, (detectFrame_posed pose st e det Href). cbn [fst snd].
    cbn [posed flat_map app]. change (flat_map _ frames) with (posed frames).
    rewrite feed_cons. cbn [snd].
    pose proof (step_message e pose det Hok) as Hmsg.
    assert (Hne : String.eqb (formQuality (snd (detectRep e pose det))) ""
                  = false).
    { apply String.eqb_neq. now apply (messages_nonempty e). }
    rewrite Hne.
    match goal with |- context [run props frames ?s] => set (st1 := s) end.
    destruct (IH st1 (snd (detectRep e pose det)) eq_refl (or_introl Hmsg))
      as [IHc IHf].
    split.
    + apply Forall_app. split; [|exact IHc].
      apply Forall_app. split.
      * destruct (fst (detectRep e pose det)); [|constructor].
        constructor; [exact I|].
        destruct (fires props st true _); repeat constructor.
      * constructor; [exact Hmsg | constructor].
    + intros _. destruct (posed frames) as [|p ps] eqn:Hp.
      * rewrite (run_unposed frames st1 Hp). cbn. split; [reflexivity|].
        exact Hmsg.
      * apply IHf. discriminate.
  - rewrite run_cons, detectFrame_skipped. cbn [fst snd app].
    cbn [posed flat_map app]. change (flat_map _ frames) with (posed frames).
    now apply IH.
Qed.

End Camera.
End CameraFacts.

(** X10. The camera and its detector stay in step.  From the start of a
    session (the effect that installs a new detector and zeroes the
    display) the detector has seen exactly the frames that came with a
    pose, in order; the displayed count is its [getReps()]; and the counts
    passed to [onRepsUpdate] are 1, 2, ..., up to the displayed count,
    each once. *)
Theorem X10_camera_shows_the_detector_count `{JSMath}
  (props : LiveTrainingCamera.Props) (frames : list (option Pose))
  (before : LiveTrainingCamera.State) :
  let e := LiveTrainingCamera.exerciseType props in
  let st := snd (LiveTrainingCamera.run props frames
                   (LiveTrainingCamera.sessionEffect props before)) in
  let calls := fst (LiveTrainingCamera.run props frames
                      (LiveTrainingCamera.sessionEffect props before)) in
  let det := snd (feed e (LiveTrainingCamera.posed frames)
                    new_ExerciseDetector) in
  LiveTrainingCamera.detectorRef st = Some (e, det)
  /\ LiveTrainingCamera.reps st = fst (getReps det)
  /\ LiveTrainingCamera.reported calls
     = LiveTrainingCamera.countUp 0 (Z.to_nat (LiveTrainingCamera.reps st)).
Proof.
  cbv zeta.
  destruct (CameraFacts.run_detector props frames
              (LiveTrainingCamera.sessionEffect props before)
              (LiveTrainingCamera.exerciseType props) new_ExerciseDetector
              eq_refl eq_refl) as [Hdet Hreps].
  split; [exact Hdet|]. split; [exact Hreps|].
  rewrite (CameraFacts.run_reported props frames
             (LiveTrainingCamera.sessionEffect props before)
             (LiveTrainingCamera.exerciseType props) new_ExerciseDetector
             eq_refl).
  rewrite Hreps. cbn [lastReps new_ExerciseDetector]. now rewrite Z.sub_0_r.
Qed.

(** X11. Completion is scheduled at most once per session.  With
    [onComplete] passed and [requiredReps = q], after any stretch of
    frames the completion has been scheduled (once) exactly when at least
    one rep has been counted and the count has reached [q], and
    [isComplete] says so; without [onComplete], or with [requiredReps]
    left out, it is never scheduled. *)
Theorem X11_completion_fires_once `{JSMath}
  (props : LiveTrainingCamera.Props) (frames : list (option Pose))
  (before : LiveTrainingCamera.State) :
  let st := snd (LiveTrainingCamera.run props frames
                   (LiveTrainingCamera.sessionEffect props before)) in
  let calls := fst (LiveTrainingCamera.run props frames
                      (LiveTrainingCamera.sessionEffect props before)) in
  (LiveTrainingCamera.completions calls <= 1)%nat
  /\ LiveTrainingCamera.isComplete st
     = LiveTrainingCamera.completionTriggeredRef st
  /\ (LiveTrainingCamera.completions calls = 1%nat <->
      LiveTrainingCamera.completionTriggeredRef st = true)
  /\ (forall q, LiveTrainingCamera.requiredReps props = Some q ->
        LiveTrainingCamera.onComplete props = true ->
        (LiveTrainingCamera.completionTriggeredRef st = true <->
         1 <= LiveTrainingCamera.reps st /\ q <= LiveTrainingCamera.reps st))
  /\ (LiveTrainingCamera.requiredReps props = None
      \/ LiveTrainingCamera.onComplete props = false ->
      LiveTrainingCamera.completionTriggeredRef st = false).
Proof.
  cbv zeta.
  set (st0 := LiveTrainingCamera.sessionEffect props before).
  destruct (CameraFacts.run_detector props frames st0
              (LiveTrainingCamera.exerciseType props) new_ExerciseDetector
              eq_refl eq_refl) as [_ Hreps].
  destruct (LiveTrainingCamera.requiredReps props) as [q|] eqn:Hq.
  - destruct (LiveTrainingCamera.onComplete props) eqn:Hon.
    + destruct (CameraFacts.run_completion props frames st0
                  (LiveTrainingCamera.exerciseType props)
                  new_ExerciseDetector q eq_refl Hq Hon)
        as (Ht & Hc & Hi).
      cbn [LiveTrainingCamera.completionTriggeredRef st0
           LiveTrainingCamera.sessionEffect] in Ht, Hc.
      rewrite Hc. specialize (Hi eq_refl).
      destruct (LiveTrainingCamera.completionTriggeredRef
                  (snd (LiveTrainingCamera.run props frames st0))) eqn:Htrig.
      * split; [lia|]. split; [exact Hi|]. split; [split; auto|]. split.
        -- intros q' [= <-] _. split; [intros _ | auto].
           destruct (proj1 Ht eq_refl) as [Habs | [Hlt Hqq]];
             [discriminate|].
           rewrite Hreps. cbn [lastReps new_ExerciseDetector] in Hlt. lia.
        -- intros [Habs | Habs]; discriminate.
      * split; [lia|]. split; [exact Hi|].
        split; [split; intro; discriminate|]. split.
        -- intros q' [= <-] _. split; [discriminate|]. intros [H1 Hqq].
           apply Ht. right. rewrite <- Hreps.
           cbn [lastReps new_ExerciseDetector]. lia.
        -- reflexivity.
    + destruct (CameraFacts.run_never_completes props frames st0
                  (or_intror Hon)) as (Hc & Ht & Hi).
      cbn [LiveTrainingCamera.completionTriggeredRef
           LiveTrainingCamera.isComplete st0
           LiveTrainingCamera.sessionEffect] in Ht, Hi.
      rewrite Hc, Ht, Hi. split; [lia|]. split; [reflexivity|].
      split; [split; intro; discriminate|]. split.
      * intros q' _ Habs. discriminate.
      * reflexivity.
  - destruct (CameraFacts.run_never_completes props frames st0
                (or_introl Hq)) as (Hc & Ht & Hi).
    cbn [LiveTrainingCamera.completionTriggeredRef
         LiveTrainingCamera.isComplete st0
         LiveTrainingCamera.sessionEffect] in Ht, Hi.
    rewrite Hc, Ht, Hi. split; [lia|]. split; [reflexivity|].
    split; [split; intro; discriminate|]. split.
    + intros q' Habs. discriminate.
    + reflexivity.
Qed.

Lemma X11_completion_fires_once_witness :
  let st := snd (@LiveTrainingCamera.run V8.host oneSitup twelveFrames
                   (LiveTrainingCamera.sessionEffect oneSitup
                      LiveTrainingCamera.mounted)) in
  (LiveTrainingCamera.requiredReps oneSitup = Some 1
   /\ LiveTrainingCamera.onComplete oneSitup = true)
  /\ LiveTrainingCamera.reps st = 1
  /\ (LiveTrainingCamera.completionTriggeredRef st = true <->
      1 <= LiveTrainingCamera.reps st /\ 1 <= LiveTrainingCamera.reps st).
Proof.
  cbv zeta. split; [split; reflexivity|]. split; [vm_compute; reflexivity|].
  exact (proj1 (proj2 (proj2 (proj2
           (@X11_completion_fires_once V8.host oneSitup twelveFrames
              LiveTrainingCamera.mounted)))) 1 eq_refl eq_refl).
Defined.

(** X12. The feedback on screen is the detector's.  Once a session has
    processed a frame with a pose, the [feedback] state is the detector's
    current [getFormFeedback()], one of the exercise's messages: the
    "Mission Complete!" written when the completion fires is overwritten
    within the same frame, and the "Tracking..." fallback is never used.
    Every [onFormUpdate] call carries such a message. *)
Theorem X12_feedback_is_the_detectors `{JSMath}
  (props : LiveTrainingCamera.Props) (frames : list (option Pose))
  (before : LiveTrainingCamera.State) :
  let e := LiveTrainingCamera.exerciseType props in
  let st := snd (LiveTrainingCamera.run props frames
                   (LiveTrainingCamera.sessionEffect props before)) in
  let calls := fst (LiveTrainingCamera.run props frames
                      (LiveTrainingCamera.sessionEffect props before)) in
  Forall (fun c => match c with
                   | LiveTrainingCamera.onFormUpdate s => In s (messages e)
                   | _ => True
                   end) calls
  /\ (LiveTrainingCamera.posed frames <> [] ->
      LiveTrainingCamera.feedback st
      = fst (getFormFeedback
               (snd (feed e (LiveTrainingCamera.posed frames)
                       new_ExerciseDetector)))
      /\ In (LiveTrainingCamera.feedback st) (messages e)
      /\ LiveTrainingCamera.feedback st <> "Mission Complete!"
      /\ LiveTrainingCamera.feedback st <> "Tracking...").
Proof.
  cbv zeta.
  destruct (CameraFacts.run_feedback props frames
              (LiveTrainingCamera.sessionEffect props before)
              (LiveTrainingCamera.exerciseType props) new_ExerciseDetector
              eq_refl (or_intror eq_refl)) as [Hcalls Hfb].
  split; [exact Hcalls|].
  intros Hne. destruct (Hfb Hne) as [Heq Hin].
  split; [exact Heq|]. split; [exact Hin|].
  split; intros Habs; rewrite Habs in Hin;
    destruct (LiveTrainingCamera.exerciseType props); simpl in Hin;
    repeat destruct Hin as [Hin | Hin]; try discriminate; contradiction.
Qed.

Lemma X12_feedback_is_the_detectors_witness :
  let st := snd (@LiveTrainingCamera.run V8.host oneSitup twelveFrames
                   (LiveTrainingCamera.sessionEffect oneSitup
                      LiveTrainingCamera.mounted)) in
  LiveTrainingCamera.posed twelveFrames <> []
  /\ LiveTrainingCamera.isComplete st = true
  /\ In (LiveTrainingCamera.feedback st) (messages situp).
Proof.
  cbv zeta.
  assert (Hne : LiveTrainingCamera.posed twelveFrames <> [])
    by discriminate.
  split; [exact Hne|]. split; [vm_compute; reflexivity|].
  exact (proj1 (proj2 (proj2
           (@X12_feedback_is_the_detectors V8.host oneSitup twelveFrames
              LiveTrainingCamera.mounted) Hne))).
Defined.

(** * The session reward, the awakening test and the key helper *)

Section Reward.
Import TrainingModal.

(** What a session that passes the guard of [handleEndSession] is. *)
Lemma handleEndSession_paid (props : Props) (st : State) (xp : Z) :
  handleEndSession props st = Some xp ->
  user st = true /\ notStarted st = false /\ required props <= reps st
  /\ xp = xpEarned (reps st) (selectedExercise st) (userRank props).
Proof.
  unfold handleEndSession.
  destruct (user st); [|discriminate].
  destruct (notStarted st); [discriminate|].
  destruct (Z.ltb_spec (reps st) (required props)); [discriminate|].
  cbn [negb orb]. intros [= <-]. repeat split. assumption.
Qed.

End Reward.

(** Unfold the reward once exercise and rank are known. *)
Ltac reward :=
  unfold TrainingModal.xpEarned, TrainingModal.baseXP;
  cbn [TrainingModal.rate_x2 TrainingModal.EXERCISE_XP_x2
       TrainingModal.RANK_MULTIPLIERS_x2] in *.

(** Evaluate the rate shown on a card once exercise and rank are known. *)
Ltac shown_rate :=
  match goal with
  | |- context [TrainingModal.xpPerRepShown ?e ?r] =>
      let v := eval vm_compute in (TrainingModal.xpPerRepShown e r) in
      change (TrainingModal.xpPerRepShown e r) with v
  end.



(** X14. The rate on the exercise card against the reward paid.  A paid
    session falls at most 2 points short of [reps] times the "+n XP/rep"
    shown for the rank.  Push-up and squat sessions earn exactly that
    product, and so does at least any session with an even count.  A
    sit-up session with an odd count earns one point less at rank C and
    two less at rank SS (the dashboard's 15 sit-ups at rank C pay 44 where
    3 per rep is shown), because the base experience is floored before the
    multiplier is applied. *)
Theorem X14_advertised_rate (props : TrainingModal.Props)
  (st : TrainingModal.State) (e : ExerciseType) (xp : Z) :
  0 <= TrainingModal.reps st <= 2 ^ 48 ->
  TrainingModal.selectedExercise st = Some e ->
  TrainingModal.handleEndSession props st = Some xp ->
  let shown := TrainingModal.xpPerRepShown e (TrainingModal.userRank props) in
  TrainingModal.reps st * shown - 2 <= xp
  /\ (e <> situp -> xp = TrainingModal.reps st * shown)
  /\ (Z.even (TrainingModal.reps st) = true ->
      TrainingModal.reps st * shown <= xp)
  /\ (e = situp -> Z.odd (TrainingModal.reps st) = true ->
      (TrainingModal.userRank props = TrainingModal.rank_C ->
       xp = TrainingModal.reps st * shown - 1)
      /\ (TrainingModal.userRank props = TrainingModal.rank_SS ->
          xp = TrainingModal.reps st * shown - 2)).
Proof.
  intros Hreps Hsel Hpaid. cbv zeta.
  destruct (handleEndSession_paid props st xp Hpaid) as (_ & _ & _ & ->).
  rewrite Hsel. split; [|split; [|split]].
  - destruct e, (TrainingModal.userRank props); shown_rate; reward;
      Z.div_mod_to_equations; lia.
  - intros He. destruct e; [| |contradiction];
      destruct (TrainingModal.userRank props); shown_rate; reward;
      Z.div_mod_to_equations; lia.
  - intros Heven. apply Z.even_spec in Heven. destruct Heven as [k Hk].
    rewrite Hk in *.
    destruct e, (TrainingModal.userRank props); shown_rate; reward;
      Z.div_mod_to_equations; lia.
  - intros -> Hodd. apply Z.odd_spec in Hodd. destruct Hodd as [k Hk].
    rewrite Hk in *.
    split; intros ->; shown_rate; reward; Z.div_mod_to_equations; lia.
Qed.

Lemma X14_advertised_rate_witness :
  (0 <= TrainingModal.reps fifteenSitups <= 2 ^ 48
   /\ TrainingModal.selectedExercise fifteenSitups = Some situp
   /\ TrainingModal.handleEndSession dashboardModal fifteenSitups = Some 44
   /\ Z.odd (TrainingModal.reps fifteenSitups) = true
   /\ TrainingModal.userRank dashboardModal = TrainingModal.rank_C)
  /\ TrainingModal.xpPerRepShown situp TrainingModal.rank_C = 3
  /\ 44 = TrainingModal.reps fifteenSitups
          * TrainingModal.xpPerRepShown situp
              (TrainingModal.userRank dashboardModal) - 1.
Proof.
  assert (Hreps : 0 <= TrainingModal.reps fifteenSitups <= 2 ^ 48)
    by (split; discriminate).
  split; [repeat split; try reflexivity; apply Hreps|].
  split; [reflexivity|].
  exact (proj1 (proj2 (proj2 (proj2
           (X14_advertised_rate dashboardModal fifteenSitups situp 44
              Hreps eq_refl eq_refl))) eq_refl eq_refl) eq_refl).
Defined.

Section Stats.
Import App.

Lemma fold_add_bounds (xs : list Z) (acc : Z) :
  Forall (fun a => 0 <= a <= 5) xs ->
  acc <= fold_left Z.add xs acc <= acc + 5 * Z.of_nat (List.length xs).
Proof.
  revert acc. induction xs as [|a xs IH]; intros acc Hall.
  - cbn. lia.
  - inversion Hall as [|? ? Ha Hxs]; subst. cbn [fold_left List.length].
    specialize (IH (acc + a) Hxs). lia.
Qed.

Lemma slice_Forall (P : Z -> Prop) (answers : list Z) (a b : nat) :
  Forall P answers -> Forall P (slice answers a b).
Proof.
  intros Hall. unfold slice. rewrite Forall_forall in *.
  intros v Hin. apply Hall.
  pose proof (firstn_skipn (b - a) (skipn a answers)) as H1.
  pose proof (firstn_skipn a answers) as H2.
  rewrite <- H2. apply in_or_app. right.
  rewrite <- H1. apply in_or_app. left. exact Hin.
Qed.

Lemma slice_length (answers : list Z) (a b : nat) :
  (List.length (slice answers a b) <= b - a)%nat.
Proof. unfold slice. apply firstn_le_length. Qed.

Lemma total_slice_bounds (answers : list Z) (a : nat) :
  Forall (fun v => 0 <= v <= 5) answers ->
  0 <= total (slice answers a (a + 5)) * 4 <= 100.
Proof.
  intros Hall. unfold total.
  pose proof (fold_add_bounds _ 0 (slice_Forall _ answers a (a + 5) Hall)) as Hb.
  pose proof (slice_length answers a (a + 5)) as Hl. lia.
Qed.

Lemma slice_ext (xs ys : list Z) (a b : nat) :
  (forall i, (a <= i < b)%nat -> nth_error xs i = nth_error ys i) ->
  slice xs a b = slice ys a b.
Proof.
  intros Hsame. unfold slice. apply nth_error_ext. intros i.
  rewrite !nth_error_firstn, !nth_error_skipn.
  destruct (Nat.ltb_spec i (b - a)); [|reflexivity].
  apply Hsame. lia.
Qed.

End Stats.

(** X15. The awakening test scales every stat to 0..100: when each answer
    is between 0 and 5, each of the six stats lies between 0 and 100,
    however many answers were given (missing answers count as 0). *)
Theorem X15_stats_are_percentages (answers : list Z) :
  Forall (fun v => 0 <= v <= 5) answers ->
  let stats := App.calculateStatsFromAnswers answers in
  0 <= App.mind stats <= 100
  /\ 0 <= App.body stats <= 100
  /\ 0 <= App.discipline stats <= 100
  /\ 0 <= App.lifestyle stats <= 100
  /\ 0 <= App.willpower stats <= 100
  /\ 0 <= App.focus stats <= 100.
Proof.
  intros Hall. cbv zeta. unfold App.calculateStatsFromAnswers.
  cbn [App.mind App.body App.discipline App.lifestyle App.willpower App.focus].
  repeat split;
    first [ apply (total_slice_bounds answers 0 Hall)
          | apply (total_slice_bounds answers 10 Hall)
          | apply (total_slice_bounds answers 15 Hall)
          | apply (total_slice_bounds answers 20 Hall)
          | apply (total_slice_bounds answers 25 Hall) ].
Qed.

Lemma X15_stats_are_percentages_witness :
  Forall (fun v => 0 <= v <= 5) (repeat 5 27 ++ [3])
  /\ App.calculateStatsFromAnswers (repeat 5 27 ++ [3])
     = App.mkStats 100 100 100 52 100 100
  /\ 0 <= App.lifestyle (App.calculateStatsFromAnswers (repeat 5 27 ++ [3]))
     <= 100.
Proof.
  assert (Hall : Forall (fun v => 0 <= v <= 5) (repeat 5 27 ++ [3])).
  { apply Forall_app. split; [apply Forall_forall; intros v Hv;
      apply repeat_spec in Hv; lia | repeat constructor; lia]. }
  split; [exact Hall|]. split; [reflexivity|].
  exact (proj1 (proj2 (proj2 (proj2
           (X15_stats_are_percentages (repeat 5 27 ++ [3]) Hall))))).
Defined.

(** X16. Which answers count.  The stats depend only on answers 1-5 and
    11-30: the five "work" answers (6-10) and anything past the 30th
    change nothing, and [focus] always repeats [willpower]. *)
Theorem X16_work_answers_are_ignored (answers answers' : list Z) :
  (forall i, (i < 5 \/ 10 <= i < 30)%nat ->
             nth_error answers i = nth_error answers' i) ->
  App.calculateStatsFromAnswers answers
  = App.calculateStatsFromAnswers answers'
  /\ App.focus (App.calculateStatsFromAnswers answers)
     = App.willpower (App.calculateStatsFromAnswers answers).
Proof.
  intros Hsame. split; [|reflexivity].
  unfold App.calculateStatsFromAnswers.
  rewrite (slice_ext answers answers' 0 5),
    (slice_ext answers answers' 10 15), (slice_ext answers answers' 15 20),
    (slice_ext answers answers' 20 25), (slice_ext answers answers' 25 30);
    try reflexivity; intros i Hi; apply Hsame; lia.
Qed.

Lemma X16_work_answers_are_ignored_witness :
  (forall i, (i < 5 \/ 10 <= i < 30)%nat ->
             nth_error (repeat 3 5 ++ repeat 0 5 ++ repeat 4 20) i
             = nth_error (repeat 3 5 ++ repeat 5 5 ++ repeat 4 20 ++ [1; 2]) i)
  /\ App.calculateStatsFromAnswers (repeat 3 5 ++ repeat 0 5 ++ repeat 4 20)
     = App.calculateStatsFromAnswers
         (repeat 3 5 ++ repeat 5 5 ++ repeat 4 20 ++ [1; 2]).
Proof.
  assert (Hsame : forall i, (i < 5 \/ 10 <= i < 30)%nat ->
            nth_error (repeat 3 5 ++ repeat 0 5 ++ repeat 4 20) i
            = nth_error (repeat 3 5 ++ repeat 5 5 ++ repeat 4 20 ++ [1; 2]) i).
  { intros i Hi.
    do 30 (destruct i as [|i]; [first [reflexivity | lia]|]). lia. }
  split; [exact Hsame|].
  exact (proj1 (X16_work_answers_are_ignored _ _ Hsame)).
Defined.

Section Key.
Import Notifications.

Lemma padding_length (s : list N) :
  ((List.length s + List.length (padding s)) mod 4 = 0)%nat.
Proof.
  unfold padding. rewrite repeat_length.
  pose proof (Nat.mod_upper_bound (List.length s) 4 ltac:(lia)) as Hlt.
  pose proof (Nat.div_mod_eq (List.length s) 4) as Hdm.
  destruct (List.length s mod 4)%nat as [|[|[|[|m]]]] eqn:Hm; [| | | |lia].
  - cbn. rewrite Nat.add_0_r. exact Hm.
  - change ((4 - 1) mod 4)%nat with 3%nat.
    replace (List.length s + 3)%nat
      with ((List.length s / 4 + 1) * 4)%nat by lia.
    apply Nat.Div0.mod_mul.
  - change ((4 - 2) mod 4)%nat with 2%nat.
    replace (List.length s + 2)%nat
      with ((List.length s / 4 + 1) * 4)%nat by lia.
    apply Nat.Div0.mod_mul.
  - change ((4 - 3) mod 4)%nat with 1%nat.
    replace (List.length s + 1)%nat
      with ((List.length s / 4 + 1) * 4)%nat by lia.
    apply Nat.Div0.mod_mul.
Qed.

Lemma standardAlphabet_length (s : list N) :
  List.length (standardAlphabet s) = List.length s.
Proof. unfold standardAlphabet. now rewrite !length_map. Qed.

Lemma standardAlphabet_clean (s : list N) (c : N) :
  In c (standardAlphabet s) -> c <> 45%N /\ c <> 95%N.
Proof.
  unfold standardAlphabet. rewrite map_map. intros Hin.
  apply in_map_iff in Hin. destruct Hin as [d [<- _]].
  destruct (N.eqb_spec d 45) as [->|Hd]; [cbn; split; discriminate|].
  destruct (N.eqb_spec d 95) as [->|Hd']; [split; discriminate|].
  split; assumption.
Qed.

Lemma standardAlphabet_id (s : list N) :
  ~ In 45%N s -> ~ In 95%N s -> standardAlphabet s = s.
Proof.
  intros H45 H95. unfold standardAlphabet. rewrite map_map.
  rewrite <- (map_id s) at 2. apply map_ext_in. intros c Hc.
  destruct (N.eqb_spec c 45) as [->|_]; [contradiction|].
  destruct (N.eqb_spec c 95) as [->|_]; [contradiction|reflexivity].
Qed.

Lemma base64_split (s : list N) :
  base64 s = standardAlphabet s ++ padding s.
Proof.
  unfold base64, standardAlphabet, padding.
  rewrite !map_app, !map_repeat. reflexivity.
Qed.

End Key.

(** X17. What the key helper hands to [atob].  For every input string the
    text decoded has a length that is a multiple of 4 and contains neither
    '-' nor '_'; it keeps the input's characters in place, changing only
    '-' to '+' and '_' to '/', and every character after them, at most
    three, is '='.  An input that is already padded standard base64 is
    passed on unchanged. *)
Theorem X17_key_is_padded_standard_base64 (s : list N) :
  (List.length (Notifications.base64 s) mod 4 = 0)%nat
  /\ ~ In 45%N (Notifications.base64 s)
  /\ ~ In 95%N (Notifications.base64 s)
  /\ (List.length s <= List.length (Notifications.base64 s)
      <= List.length s + 3)%nat
  /\ (forall i c, nth_error s i = Some c ->
        nth_error (Notifications.base64 s) i
        = Some (if (c =? 45)%N then 43%N
                else if (c =? 95)%N then 47%N else c))
  /\ (forall i, (List.length s <= i < List.length (Notifications.base64 s))%nat ->
        nth_error (Notifications.base64 s) i = Some 61%N)
  /\ ((List.length s mod 4 = 0)%nat -> ~ In 45%N s -> ~ In 95%N s ->
      Notifications.base64 s = s).
Proof.
  pose proof (padding_length s) as Hpad.
  pose proof (base64_split s) as Hsplit.
  assert (Hlen : List.length (Notifications.base64 s)
                 = (List.length s + List.length (Notifications.padding s))%nat).
  { rewrite Hsplit, length_app, standardAlphabet_length. reflexivity. }
  assert (Hshort : (List.length (Notifications.padding s) <= 3)%nat).
  { unfold Notifications.padding. rewrite repeat_length.
    pose proof (Nat.mod_upper_bound (4 - List.length s mod 4) 4 ltac:(lia)).
    lia. }
  split; [now rewrite Hlen|].
  split; [intros Hin; now destruct (standardAlphabet_clean _ _ Hin)|].
  split; [intros Hin; now destruct (standardAlphabet_clean _ _ Hin)|].
  split; [lia|]. split; [|split].
  - intros i c Hi. unfold Notifications.base64, Notifications.standardAlphabet.
    rewrite map_map, nth_error_map, nth_error_app1
      by (apply nth_error_Some; congruence).
    rewrite Hi. cbn [option_map]. f_equal.
    destruct (N.eqb_spec c 45) as [->|_]; reflexivity.
  - intros i Hi. rewrite Hsplit, nth_error_app2
      by (rewrite standardAlphabet_length; lia).
    rewrite standardAlphabet_length. unfold Notifications.padding in *.
    apply nth_error_repeat. rewrite repeat_length in Hlen. lia.
  - intros Hmod H45 H95. unfold Notifications.base64, Notifications.padding.
    rewrite Hmod. change ((4 - 0) mod 4)%nat with 0%nat. cbn [repeat].
    rewrite app_nil_r. now apply standardAlphabet_id.
Qed.

Lemma X17_key_is_padded_standard_base64_witness :
  ((List.length [65; 81; 73; 68]%N mod 4 = 0)%nat
   /\ ~ In 45%N [65; 81; 73; 68]%N /\ ~ In 95%N [65; 81; 73; 68]%N)
  /\ Notifications.base64 [65; 81; 73; 68]%N = [65; 81; 73; 68]%N
  /\ (nth_error [45; 95; 65]%N 1 = Some 95%N
      /\ nth_error (Notifications.base64 [45; 95; 65]%N) 1 = Some 47%N)
  /\ ((List.length [45; 95; 65]%N <= 3
       < List.length (Notifications.base64 [45; 95; 65]%N))%nat
      /\ nth_error (Notifications.base64 [45; 95; 65]%N) 3 = Some 61%N).
Proof.
  assert (H45 : ~ In 45%N [65; 81; 73; 68]%N)
    by (cbn; intros [H|[H|[H|[H|[]]]]]; discriminate).
  assert (H95 : ~ In 95%N [65; 81; 73; 68]%N)
    by (cbn; intros [H|[H|[H|[H|[]]]]]; discriminate).
  assert (Hi : (List.length [45; 95; 65]%N <= 3
                < List.length (Notifications.base64 [45; 95; 65]%N))%nat)
    by (cbn; lia).
  split; [repeat split; assumption|]. split; [|split].
  - exact (proj2 (proj2 (proj2 (proj2 (proj2 (proj2
             (X17_key_is_padded_standard_base64 [65; 81; 73; 68]%N))))))
             eq_refl H45 H95).
  - split; [reflexivity|].
    exact (proj1 (proj2 (proj2 (proj2 (proj2
             (X17_key_is_padded_standard_base64 [45; 95; 65]%N)))))
             1%nat 95%N eq_refl).
  - split; [exact Hi|].
    exact (proj1 (proj2 (proj2 (proj2 (proj2 (proj2
             (X17_key_is_padded_standard_base64 [45; 95; 65]%N))))))
             3%nat Hi).
Defined.
